(** * Zettlr: configuration template and file-manager item mixin

    A shallow embedding of
    - [source/app/service-providers/config/get-config-template.ts]
      ([getConfigTemplate] and the module constants it uses), and
    - the item mixin shared by the TreeItem and FileItem components
      ([requestSelection], [finishNameEditing]),
    followed by the properties proved about them.

    Strings are [string], JavaScript numbers that only ever hold small
    integers are [Z], arrays are lists, object literals are records. *)

From Stdlib Require Import String Ascii List ZArith NArith Bool Lia.
From Stdlib.Strings Require Import Byte.
Import ListNotations.
Local Open Scope string_scope.

(* ================================================================== *)
(** * Part I: definitions                                              *)
(* ================================================================== *)

(** ** JavaScript values *)

Module Js.

(** A property that may be absent ([undefined]), [null], or hold a
    value.  The distinction matters wherever the source compares with
    [===]. *)
Inductive maybe (A : Type) : Type :=
| undefined
| null
| val (a : A).
Arguments undefined {A}.
Arguments null {A}.
Arguments val {A} a.

(** [x === undefined] *)
Definition is_undefined {A} (x : maybe A) : bool :=
  match x with undefined => true | _ => false end.

(** [x === true] for a property that holds a boolean when present. *)
Definition is_true (x : maybe bool) : bool :=
  match x with val true => true | _ => false end.

(** [x === false] *)
Definition is_false (x : maybe bool) : bool :=
  match x with val false => true | _ => false end.

(** [x === n] for a property that holds a number when present. *)
Definition is_num (x : maybe Z) (n : Z) : bool :=
  match x with val m => Z.eqb m n | _ => false end.

(** The double-quote character, U+0022. *)
Definition dquote : string :=
  String (Ascii false true false false false true false false) EmptyString.

End Js.

(** ** The [bcp-47] schema (third-party parser, taken as a parameter) *)

Module Bcp47.

(** The part of the schema returned by [bcp47.parse] that the program
    reads.  [getConfigTemplate] only looks at [language]. *)
Record Schema := {
  language : Js.maybe string;
  region : Js.maybe string
}.

(** Two parsed tags name the same language when both language subtags
    are present and equal. *)
Definition same_language (a b : Schema) : bool :=
  match language a, language b with
  | Js.val x, Js.val y => String.eqb x y
  | _, _ => false
  end.

End Bcp47.

(** ** The host: what Electron and Node report to the program *)

Record Host := {
  app_getLocale : string;      (* app.getLocale() *)
  app_getVersion : string;     (* app.getVersion() *)
  process_platform : string    (* process.platform *)
}.

(** ** The [uuid] package's v4 generator *)

Module Uuid.

(** The random source: an unbounded supply of bytes and a read
    position. *)
Record Rng := {
  pool : nat -> byte;
  ptr : nat
}.

(** [rng()]: the next sixteen random bytes. *)
Definition rng (r : Rng) : list byte * Rng :=
  (map (pool r) (seq (ptr r) 16),
   {| pool := pool r; ptr := ptr r + 16 |}).

(** [(b & mask) | bits] on one byte. *)
Definition and_or (b : byte) (mask bits : N) : byte :=
  match Byte.of_N (N.lor (N.land (Byte.to_N b) mask) bits) with
  | Some b' => b'
  | None => x00
  end.

(** [arr[i] = f(arr[i])] *)
Fixpoint update (i : nat) (f : byte -> byte) (arr : list byte) : list byte :=
  match arr, i with
  | [], _ => []
  | b :: rest, O => f b :: rest
  | b :: rest, S j => b :: update j f rest
  end.

Definition hexdigit (n : N) : ascii :=
  match n with
  | 0 => "0" | 1 => "1" | 2 => "2" | 3 => "3" | 4 => "4" | 5 => "5"
  | 6 => "6" | 7 => "7" | 8 => "8" | 9 => "9" | 10 => "a" | 11 => "b"
  | 12 => "c" | 13 => "d" | 14 => "e" | _ => "f"
  end%N%char.

Definition hi (b : byte) : ascii := hexdigit (Byte.to_N b / 16).
Definition lo (b : byte) : ascii := hexdigit (Byte.to_N b mod 16).

(** [byteToHex[b]]: two lowercase hexadecimal digits. *)
Definition byteToHex (b : byte) : string :=
  String (hi b) (String (lo b) EmptyString).

(** The digit a lowercase hexadecimal character stands for. *)
Definition unhex (c : ascii) : N :=
  let n := N_of_ascii c in
  (if n <? 58 then n - 48 else n - 87)%N.

(** [unsafeStringify(arr)] *)
Definition unsafeStringify (arr : list byte) : string :=
  let h i := byteToHex (nth i arr x00) in
  h 0%nat ++ h 1%nat ++ h 2%nat ++ h 3%nat ++ "-" ++
  h 4%nat ++ h 5%nat ++ "-" ++
  h 6%nat ++ h 7%nat ++ "-" ++
  h 8%nat ++ h 9%nat ++ "-" ++
  h 10%nat ++ h 11%nat ++ h 12%nat ++ h 13%nat ++ h 14%nat ++ h 15%nat.

(** The sixteen bytes of a version-4 UUID: the random bytes with the
    version nibble and the variant bits written over them. *)
Definition stamp (rnds : list byte) : list byte :=
  update 8 (fun b => and_or b 63 128)
    (update 6 (fun b => and_or b 15 64) rnds).

(** Modelled from the spec: the [v4] export of the third-party [uuid]
    package, which is not part of the sources; the spec asks for "a
    fresh random UUID (v4)", that is sixteen random bytes with the
    version set to 4 and the variant to 10, printed as 8-4-4-4-12. *)
Definition uuid4 (r : Rng) : string * Rng :=
  let (rnds, r') := rng r in
  (unsafeStringify (stamp rnds), r').

(** *** Syntax of a version-4 UUID *)

Definition is_hex (c : ascii) : bool :=
  let n := nat_of_ascii c in
  ((48 <=? n) && (n <=? 57) || (97 <=? n) && (n <=? 102))%nat.

Definition is_dash (c : ascii) : bool := Ascii.eqb c "-".
Definition is_four (c : ascii) : bool := Ascii.eqb c "4".
Definition is_variant (c : ascii) : bool :=
  Ascii.eqb c "8" || Ascii.eqb c "9" || Ascii.eqb c "a" || Ascii.eqb c "b".

(** One character class per position of
    [xxxxxxxx-xxxx-4xxx-yxxx-xxxxxxxxxxxx]. *)
Definition v4_pattern : list (ascii -> bool) :=
  repeat is_hex 8 ++ [is_dash] ++ repeat is_hex 4 ++ [is_dash] ++
  [is_four] ++ repeat is_hex 3 ++ [is_dash] ++
  [is_variant] ++ repeat is_hex 3 ++ [is_dash] ++ repeat is_hex 12.

Fixpoint matches (pat : list (ascii -> bool)) (s : string) : bool :=
  match pat, s with
  | [], EmptyString => true
  | p :: pat', String c s' => p c && matches pat' s'
  | _, _ => false
  end.

Definition is_uuid_v4 (s : string) : bool := matches v4_pattern s.

End Uuid.

(** ** Translation lookup *)

Module Translations.

(** What [getLanguageFile] returns; the program reads only [tag]. *)
Record LangFile := {
  tag : string;
  path : string
}.

(** The translation that ships with the application. *)
Definition fallback : LangFile :=
  {| tag := "en-US"; path := "" |}.

(** Modelled from the spec: [getLanguageFile] of
    [@common/util/get-language-file], which is not part of the sources.
    The spec: "match the parsed locale against the set of available
    translation files and select the closest available tag (exact match
    preferred, then language-only match, then fallback)". *)
Definition getLanguageFile
    (parse : string -> Bcp47.Schema) (installed : list LangFile)
    (query : string) : LangFile :=
  match find (fun c => String.eqb (tag c) query) installed with
  | Some exact => exact
  | None =>
    match find (fun c => Bcp47.same_language (parse (tag c)) (parse query))
               installed with
    | Some close => close
    | None => fallback
    end
  end.

End Translations.

(** ** Tags with and without a language *)

Module Locale.


End Locale.

(** ** The configuration record *)

Module Config.

Record DialogPaths := {
  askFileDialog : string;
  askDirDialog : string;
  askLangFileDialog : string
}.

Record Window := {
  nativeAppearance : bool;
  vibrancy : bool;
  sidebarVisible : bool;
  currentSidebarTab : string;
  recentGlobalSearches : list string
}.

Record Ui := {
  fileManagerSplitSize : Z * Z;
  editorSidebarSplitSize : Z * Z
}.

Record CustomCommand := {
  displayName : string;
  command : string
}.

Record Export := {
  dir : string;
  stripTags : bool;
  stripLinks : string;
  cslLibrary : string;
  cslStyle : string;
  useBundledPandoc : bool;
  singleFileLastExporter : string;
  exportQmdWithQuarto : bool;
  customCommands : list CustomCommand
}.

Record Zkn := {
  idRE : string;
  idGen : string;
  linkFilenameOnly : bool;
  linkWithFilename : string;
  linkFormat : string;
  autoSearch : bool;
  customDirectory : string
}.

Module LanguageTool.
Record Variants := {
  en : string;
  de : string;
  pt : string;
  ca : string
}.

Record t := {
  active : bool;
  level : string;
  motherTongue : string;
  variants : Variants;
  provider : string;
  customServer : string;
  username : string;
  apiKey : string
}.
End LanguageTool.

Record Lint := {
  markdown : bool;
  languageTool : LanguageTool.t
}.

Module AutoCorrect.
Record MagicQuotes := {
  primary : string;
  secondary : string
}.

Record Replacement := {
  key : string;
  value : string
}.

Record t := {
  active : bool;
  magicQuotes : MagicQuotes;
  replacements : list Replacement;
  matchWholeWords : bool
}.
End AutoCorrect.

Record Editor := {
  autocompleteSuggestEmojis : bool;
  autoSave : string;
  citeStyle : string;
  autoCloseBrackets : bool;
  showLinkPreviews : bool;
  showStatusbar : bool;
  showFormattingToolbar : bool;
  showWhitespace : bool;
  defaultSaveImagePath : string;
  enableTableHelper : bool;
  indentUnit : Z;
  indentWithTabs : bool;
  fontSize : Z;
  countChars : bool;
  inputMode : string;
  boldFormatting : string;
  italicFormatting : string;
  readabilityAlgorithm : string;
  lint : Lint;
  autoCorrect : AutoCorrect.t
}.

Record Display := {
  theme : string;
  hideToolbarInDistractionFree : bool;
  markdownFileExtensions : bool;
  imageWidth : Z;
  imageHeight : Z;
  renderCitations : bool;
  renderIframes : bool;
  renderImages : bool;
  renderLinks : bool;
  renderMath : bool;
  renderTasks : bool;
  renderHTags : bool;
  renderEmphasis : bool
}.

Record Watchdog := {
  activatePolling : bool;
  stabilityThreshold : Z
}.

Record System := {
  deleteOnFail : bool;
  leaveAppRunning : bool;
  avoidNewTabs : bool;
  iframeWhitelist : list string;
  checkForUpdates : bool;
  zoomBehavior : string
}.

Record DisplayToolbarButtons := {
  showOpenPreferencesButton : bool;
  showNewFileButton : bool;
  showPreviousFileButton : bool;
  showNextFileButton : bool;
  showToggleReadabilityButton : bool;
  showMarkdownCommentButton : bool;
  showMarkdownLinkButton : bool;
  showMarkdownImageButton : bool;
  showMarkdownMakeTaskListButton : bool;
  showInsertTableButton : bool;
  showInsertFootnoteButton : bool;
  showDocumentInfoText : bool;
  showPomodoroButton : bool
}.

(** [interface ConfigOptions] *)
Record ConfigOptions := {
  version : string;
  openPaths : list string;
  openDirectory : option string;        (* string|null *)
  dialogPaths : DialogPaths;
  window : Window;
  ui : Ui;
  attachmentExtensions : list string;
  darkMode : bool;
  alwaysReloadFiles : bool;
  autoDarkMode : string;
  autoDarkModeStart : string;
  autoDarkModeEnd : string;
  fileMeta : bool;
  fileMetaTime : string;
  sorting : string;
  sortFoldersFirst : bool;
  muteLines : bool;
  fileManagerMode : string;
  fileNameDisplay : string;
  newFileNamePattern : string;
  newFileDontPrompt : bool;
  export : Export;
  zkn : Zkn;
  editor : Editor;
  display : Display;
  selectedDicts : list string;
  appLang : string;
  debug : bool;
  watchdog : Watchdog;
  system : System;
  checkForBeta : bool;
  displayToolbarButtons : DisplayToolbarButtons;
  uuid : string
}.

End Config.

(** ** [get-config-template.ts] *)

Module ConfigTemplate.
Import Config.

(** The module-level constants.  They are evaluated once, when the
    module is loaded, and every later call of [getConfigTemplate] reads
    them from here. *)
Record ModuleScope := {
  ZETTLR_VERSION : string;
  ATTACHMENT_EXTENSIONS : list string
}.

(** Loading the module in a running application. *)
Definition load (h : Host) : ModuleScope := {|
  ZETTLR_VERSION := app_getVersion h;
  ATTACHMENT_EXTENSIONS := [
    ".pdf"; ".odt"; ".odp"; ".ods";
    (* Microsoft office *)
    ".doc"; ".docx"; ".xls"; ".xlsx"; ".ppt"; ".pptx";
    (* Data scientific file types *)
    ".do"; ".r"; ".py";
    (* Data files *)
    ".sav"; ".zsav"; ".csv"; ".tsv";
    (* Image types *)
    ".png"; ".jpg"; ".jpeg"; ".gif"; ".tiff"
  ]
|}.

(** One entry of [autoCorrect.replacements]. *)
Definition kv (k v : string) : AutoCorrect.Replacement :=
  {| AutoCorrect.key := k; AutoCorrect.value := v |}.

Section GetConfigTemplate.

(** [bcp47.parse], from the third-party package [bcp-47]. *)
Variable bcp47_parse : string -> Bcp47.Schema.

(** [getLanguageFile], from [@common/util/get-language-file]. *)
Variable getLanguageFile : string -> Translations.LangFile.

(** The locale the template stores in [appLang]. *)
Definition resolveLocale (h : Host) : string :=
  let locale := app_getLocale h in
  let locSchema := bcp47_parse locale in
  if Js.is_undefined (Bcp47.language locSchema) then
    (* Fall back to en-US *)
    "en-US"
  else
    (* Return the best match that the app can find (only the tag). *)
    Translations.tag (getLanguageFile locale).

Definition getConfigTemplate (m : ModuleScope) (h : Host) (r : Uuid.Rng)
  : ConfigOptions * Uuid.Rng :=
  let locale := resolveLocale h in
  let (id, r') := Uuid.uuid4 r in
  ({|
    version := ZETTLR_VERSION m;
    openPaths := [];
    openDirectory := None;
    dialogPaths := {|
      askFileDialog := "";
      askDirDialog := "";
      askLangFileDialog := ""
    |};
    window := {|
      nativeAppearance := String.eqb (process_platform h) "darwin";
      vibrancy := String.eqb (process_platform h) "darwin";
      sidebarVisible := false;
      currentSidebarTab := "toc";
      recentGlobalSearches := []
    |};
    ui := {|
      fileManagerSplitSize := (20, 80)%Z;
      editorSidebarSplitSize := (80, 20)%Z
    |};
    attachmentExtensions := ATTACHMENT_EXTENSIONS m;
    darkMode := false;
    alwaysReloadFiles := true;
    autoDarkMode := "system";
    autoDarkModeStart := "21:00";
    autoDarkModeEnd := "06:00";
    fileMeta := true;
    fileMetaTime := "modtime";
    sorting := "natural";
    sortFoldersFirst := true;
    muteLines := true;
    fileManagerMode := "combined";
    fileNameDisplay := "title+heading";
    newFileNamePattern := "%id.md";
    newFileDontPrompt := false;
    export := {|
      dir := "temp";
      stripTags := false;
      stripLinks := "full";
      cslLibrary := "";
      cslStyle := "";
      useBundledPandoc := true;
      exportQmdWithQuarto := false;
      singleFileLastExporter := "html";
      customCommands := []
    |};
    zkn := {|
      idRE := "(\d{14})";
      idGen := "%Y%M%D%h%m%s";
      linkFilenameOnly := false;
      linkWithFilename := "never";
      linkFormat := "link|title";
      autoSearch := true;
      customDirectory := ""
    |};
    editor := {|
      autoSave := "off";
      autocompleteSuggestEmojis := true;
      autoCloseBrackets := true;
      showLinkPreviews := true;
      showWhitespace := false;
      defaultSaveImagePath := "";
      citeStyle := "regular";
      enableTableHelper := true;
      indentUnit := 4;
      indentWithTabs := false;
      fontSize := 18;
      countChars := false;
      inputMode := "default";
      boldFormatting := "**";
      italicFormatting := "_";
      readabilityAlgorithm := "dale-chall";
      showStatusbar := true;
      showFormattingToolbar := true;
      lint := {|
        markdown := true;
        languageTool := {|
          LanguageTool.active := false;
          LanguageTool.level := "picky";
          LanguageTool.motherTongue := "";
          LanguageTool.variants := {|
            LanguageTool.en := "en-US";
            LanguageTool.de := "de-DE";
            LanguageTool.pt := "pt-PT";
            LanguageTool.ca := "ca-ES"
          |};
          LanguageTool.provider := "official";
          LanguageTool.customServer := "";
          LanguageTool.username := "";
          LanguageTool.apiKey := ""
        |}
      |};
      autoCorrect := {|
        AutoCorrect.active := true;
        AutoCorrect.magicQuotes := {|
          AutoCorrect.primary := Js.dquote ++ "…" ++ Js.dquote;
          AutoCorrect.secondary := "'…'"
        |};
        AutoCorrect.replacements := [
          (* Arrows *)
          kv "-->" "→";
          kv "–>" "→";
          kv "<--" "←";
          kv "<->" "↔";
          kv "<-->" "↔";
          kv "==>" "⇒";
          kv "<==" "⇐";
          kv "<=>" "⇔";
          kv "<==>" "⇔";
          (* Mathematical symbols *)
          kv "!=" "≠";
          kv "<>" "≠";
          kv "+-" "±";
          kv ":time:" "×";
          kv ":division:" "÷";
          kv "<=" "≤";
          kv ">=" "≥";
          kv "1/2" "½";
          kv "1/3" "⅓";
          kv "2/3" "⅔";
          kv "1/4" "¼";
          kv "3/4" "¾";
          kv "1/8" "⅛";
          kv "3/8" "⅜";
          kv "5/8" "⅝";
          kv "7/8" "⅞";
          (* Units *)
          kv "mm2" "mm²";
          kv "cm2" "cm²";
          kv "m2" "m²";
          kv "km2" "km²";
          kv "mm3" "mm³";
          kv "cm3" "cm³";
          kv "ccm" "cm³";
          kv "m3" "m³";
          kv "km3" "km³";
          kv ":sup2:" "²";
          kv ":sup3:" "³";
          kv ":deg:" "°";
          (* Currencies *)
          kv ":eur" "€";
          kv ":gbp" "£";
          kv ":yen" "¥";
          kv ":cent" "¢";
          kv ":inr:" "₹";
          (* Special symbols *)
          kv "(c)" "©";
          kv "(tm)" "™";
          kv "(r)" "®";
          (* Interpunctation *)
          kv "..." "…";
          kv "--" "–";
          kv "---" "—"
        ];
        AutoCorrect.matchWholeWords := false
      |}
    |};
    display := {|
      theme := "berlin";
      hideToolbarInDistractionFree := false;
      markdownFileExtensions := false;
      imageWidth := 100;
      imageHeight := 50;
      renderCitations := true;
      renderIframes := true;
      renderImages := true;
      renderLinks := true;
      renderMath := true;
      renderTasks := true;
      renderHTags := false;
      renderEmphasis := false
    |};
    selectedDicts := [];
    appLang := locale;
    debug := false;
    watchdog := {|
      activatePolling := false;
      stabilityThreshold := 1000
    |};
    system := {|
      deleteOnFail := false;
      leaveAppRunning := false;
      avoidNewTabs := false;
      iframeWhitelist := [ "www.youtube.com"; "player.vimeo.com" ];
      checkForUpdates := true;
      zoomBehavior := "gui"
    |};
    checkForBeta := false;
    displayToolbarButtons := {|
      showOpenPreferencesButton := true;
      showNewFileButton := true;
      showPreviousFileButton := true;
      showNextFileButton := true;
      showToggleReadabilityButton := true;
      showMarkdownCommentButton := true;
      showMarkdownLinkButton := true;
      showMarkdownImageButton := true;
      showMarkdownMakeTaskListButton := true;
      showInsertTableButton := true;
      showInsertFootnoteButton := true;
      showDocumentInfoText := true;
      showPomodoroButton := true
    |};
    uuid := id
  |}, r').

End GetConfigTemplate.

End ConfigTemplate.

(** ** Views of a configuration record *)

Module View.
Import Config.

(** [c] with the three host-dependent strings and the window group
    replaced. *)
Definition override (v lang id : string) (w : Window) (c : ConfigOptions)
  : ConfigOptions := {|
  version := v;
  openPaths := openPaths c;
  openDirectory := openDirectory c;
  dialogPaths := dialogPaths c;
  window := w;
  ui := ui c;
  attachmentExtensions := attachmentExtensions c;
  darkMode := darkMode c;
  alwaysReloadFiles := alwaysReloadFiles c;
  autoDarkMode := autoDarkMode c;
  autoDarkModeStart := autoDarkModeStart c;
  autoDarkModeEnd := autoDarkModeEnd c;
  fileMeta := fileMeta c;
  fileMetaTime := fileMetaTime c;
  sorting := sorting c;
  sortFoldersFirst := sortFoldersFirst c;
  muteLines := muteLines c;
  fileManagerMode := fileManagerMode c;
  fileNameDisplay := fileNameDisplay c;
  newFileNamePattern := newFileNamePattern c;
  newFileDontPrompt := newFileDontPrompt c;
  export := export c;
  zkn := zkn c;
  editor := editor c;
  display := display c;
  selectedDicts := selectedDicts c;
  appLang := lang;
  debug := debug c;
  watchdog := watchdog c;
  system := system c;
  checkForBeta := checkForBeta c;
  displayToolbarButtons := displayToolbarButtons c;
  uuid := id
|}.

(** Everything but [uuid]. *)
Definition except_uuid (c : ConfigOptions) : ConfigOptions :=
  override (version c) (appLang c) "" (window c) c.

(** Everything but [version], [appLang] and [uuid]. *)
Definition except_version_appLang_uuid (c : ConfigOptions) : ConfigOptions :=
  override "" "" "" (window c) c.

(** The window group without the two platform switches. *)
Definition window_except_platform (w : Window) : Window := {|
  nativeAppearance := false;
  vibrancy := false;
  sidebarVisible := sidebarVisible w;
  currentSidebarTab := currentSidebarTab w;
  recentGlobalSearches := recentGlobalSearches w
|}.

(** Everything but [version], [appLang], [uuid],
    [window.nativeAppearance] and [window.vibrancy]. *)
Definition literal_part (c : ConfigOptions) : ConfigOptions :=
  override "" "" "" (window_except_platform (window c)) c.

(** No string occurs twice. *)
Fixpoint distinct (l : list string) : bool :=
  match l with
  | [] => true
  | x :: rest => negb (existsb (String.eqb x) rest) && distinct rest
  end.

(** *** The string-literal union types of [interface ConfigOptions] *)

Definition MarkdownTheme : list string :=
  ["berlin"; "frankfurt"; "bielefeld"; "karl-marx-stadt"; "bordeaux"].
Definition currentSidebarTab_values : list string :=
  ["toc"; "references"; "relatedFiles"; "attachments"].
Definition autoDarkMode_values : list string :=
  ["off"; "system"; "schedule"; "auto"].
Definition fileMetaTime_values : list string := ["modtime"; "creationtime"].
Definition sorting_values : list string := ["natural"; "ascii"].
Definition fileManagerMode_values : list string :=
  ["thin"; "combined"; "expanded"].
Definition fileNameDisplay_values : list string :=
  ["filename"; "title"; "heading"; "title+heading"].
Definition export_dir_values : list string := ["temp"; "cwd"; "ask"].
Definition stripLinks_values : list string := ["full"; "unlink"; "no"].
Definition linkWithFilename_values : list string :=
  ["always"; "never"; "withID"].
Definition linkFormat_values : list string := ["link|title"; "title|link"].
Definition autoSave_values : list string := ["off"; "immediately"; "delayed"].
Definition citeStyle_values : list string :=
  ["in-text"; "in-text-suffix"; "regular"].
Definition inputMode_values : list string := ["default"; "vim"; "emacs"].
Definition boldFormatting_values : list string := ["**"; "__"].
Definition italicFormatting_values : list string := ["_"; "*"].
Definition readabilityAlgorithm_values : list string :=
  ["dale-chall"; "gunning-fog"; "coleman-liau"; "automated-readability"].
Definition level_values : list string := ["picky"; "default"].
Definition provider_values : list string := ["official"; "custom"].
Definition zoomBehavior_values : list string := ["gui"; "editor"].

(** Every enumerated field, with the set its type declares. *)
Definition enumerated (c : ConfigOptions) : list (string * list string) := [
  (currentSidebarTab (window c), currentSidebarTab_values);
  (autoDarkMode c, autoDarkMode_values);
  (fileMetaTime c, fileMetaTime_values);
  (sorting c, sorting_values);
  (fileManagerMode c, fileManagerMode_values);
  (fileNameDisplay c, fileNameDisplay_values);
  (dir (export c), export_dir_values);
  (stripLinks (export c), stripLinks_values);
  (linkWithFilename (zkn c), linkWithFilename_values);
  (linkFormat (zkn c), linkFormat_values);
  (autoSave (editor c), autoSave_values);
  (citeStyle (editor c), citeStyle_values);
  (inputMode (editor c), inputMode_values);
  (boldFormatting (editor c), boldFormatting_values);
  (italicFormatting (editor c), italicFormatting_values);
  (readabilityAlgorithm (editor c), readabilityAlgorithm_values);
  (LanguageTool.level (languageTool (lint (editor c))), level_values);
  (LanguageTool.provider (languageTool (lint (editor c))), provider_values);
  (theme (display c), MarkdownTheme);
  (zoomBehavior (system c), zoomBehavior_values)
].

End View.

(** ** The item mixin of the file manager *)

Module ItemMixin.

(** The plain data sent over the inter-process channel. *)
#[warnings="-register-all"] Inductive Json :=
| JStr (s : string)
| JBool (b : bool)
| JObj (fields : list (string * Json)).

(** The directory descriptor an item hangs below. *)
Record Parent := {
  parent_path : string
}.

(** [this.obj]: the file or directory descriptor the item shows.
    Descriptors are compared by identity ([this.selectedDir === this.obj]),
    so each carries the address of its object. *)
Record Item := {
  address : nat;
  name : string;
  path : string;
  type : string;
  parent : option Parent;               (* null for a root *)
  dirNotFoundFlag : Js.maybe bool       (* directories only *)
}.

(** The triggering [MouseEvent] or [KeyboardEvent]. *)
Record Event := {
  event_type : string;
  button : Js.maybe Z;                  (* undefined on a KeyboardEvent *)
  altKey : bool
}.

(** What the component reads from [this.$store]. *)
Record Store := {
  selectedDirectory : option Item;
  lastLeafId : string
}.

(** The component instance ([this]). *)
Record Component := {
  obj : Item;
  windowId : string;
  nameEditing : bool;
  hasChildren : Js.maybe bool;          (* tree items only *)
  collapsed : Js.maybe bool;            (* tree items only *)
  store : Store
}.

(** The callbacks the mixin chains onto the promise of [invoke]. *)
Inductive Callback :=
| catch_console_error                   (* .catch(e => console.error(e)) *)
| finally_nameEditing_false.            (* .finally(() => { this.nameEditing = false }) *)

(** What a method does to the world outside the component. *)
Inductive Effect :=
| stopPropagation
| preventDefault
| ipc_invoke (channel : string) (message : Json) (chain : list Callback)
| ipc_send (channel : string) (message : Json)
| toggleFileList
| console_error.

Definition is_ipc (e : Effect) : bool :=
  match e with
  | ipc_invoke _ _ _ | ipc_send _ _ => true
  | _ => false
  end.

Definition set_collapsed (v : Js.maybe bool) (c : Component) : Component := {|
  obj := obj c;
  windowId := windowId c;
  nameEditing := nameEditing c;
  hasChildren := hasChildren c;
  collapsed := v;
  store := store c
|}.

Definition set_nameEditing (v : bool) (c : Component) : Component := {|
  obj := obj c;
  windowId := windowId c;
  nameEditing := v;
  hasChildren := hasChildren c;
  collapsed := collapsed c;
  store := store c
|}.

(** [computed.isDirectory] *)
Definition isDirectory (c : Component) : bool :=
  String.eqb (type (obj c)) "directory".

(** [this.selectedDir === this.obj] *)
Definition selectedDir_is_obj (c : Component) : bool :=
  match selectedDirectory (store c) with
  | Some d => Nat.eqb (address d) (address (obj c))
  | None => false
  end.

(** [methods.requestSelection] *)
Definition requestSelection (c : Component) (event : Event)
  : Component * list Effect :=
  if Js.is_true (dirNotFoundFlag (obj c)) then
    (c, [stopPropagation])
  else if Js.is_num (button event) 2 then
    (c, [])
  else
    let middleClick :=
      String.eqb (event_type event) "auxclick" && Js.is_num (button event) 1 in
    let alt := altKey event in
    let type := type (obj c) in
    let fx0 := if middleClick then [preventDefault] else [] in
    if existsb (String.eqb type) ["file"; "code"] then
      (c, (fx0 ++ [ipc_invoke "documents-provider" (JObj [
             ("command", JStr "open-file");
             ("payload", JObj [
                ("path", JStr (path (obj c)));
                ("windowId", JStr (windowId c));
                ("leafId", JStr (lastLeafId (store c)));
                ("newTab", JBool (middleClick || (alt && String.eqb type "file")))
             ])
           ]) [catch_console_error]])%list)
    else
      match (if alt then parent (obj c) else None) with
      | Some p =>
        (c, (fx0 ++ [ipc_invoke "application" (JObj [
               ("command", JStr "set-open-directory");
               ("payload", JStr (parent_path p))
             ]) [catch_console_error]])%list)
      | None =>
        if String.eqb type "directory" then
          let fx1 :=
            if selectedDir_is_obj c then [toggleFileList]
            else [ipc_invoke "application" (JObj [
                    ("command", JStr "set-open-directory");
                    ("payload", JStr (path (obj c)))
                  ]) [catch_console_error]] in
          let c' :=
            if Js.is_true (hasChildren c)
            then set_collapsed (Js.val (Js.is_false (collapsed c))) c
            else c in
          (c', (fx0 ++ fx1)%list)
        else
          (c, fx0)
      end.

(** [methods.finishNameEditing] *)
Definition finishNameEditing (c : Component) (newName : string)
  : Component * list Effect :=
  if String.eqb newName (name (obj c)) then
    (c, [])
  else
    let command :=
      if String.eqb (type (obj c)) "directory" then "dir-rename"
      else "file-rename" in
    (c, [ipc_invoke "application" (JObj [
           ("command", JStr command);
           ("payload", JObj [
              ("path", JStr (path (obj c)));
              ("name", JStr newName)
           ])
         ]) [catch_console_error; finally_nameEditing_false]]).

(** How the promise returned by [invoke] ends. *)
Inductive Outcome :=
| fulfilled
| rejected.

(** Running a chain of callbacks once the promise has settled.  A
    [catch] handler runs on rejection and hands a fulfilled promise on;
    a [finally] handler runs either way and hands the outcome on.  (The
    [nameEditing] watcher returns at once when the new value is false,
    so writing false has no further effect.) *)
Fixpoint settle (o : Outcome) (chain : list Callback) (c : Component)
  : Component * list Effect :=
  match chain with
  | [] => (c, [])
  | catch_console_error :: rest =>
    match o with
    | rejected =>
      let (c', fx) := settle fulfilled rest c in (c', console_error :: fx)
    | fulfilled => settle fulfilled rest c
    end
  | finally_nameEditing_false :: rest =>
    settle o rest (set_nameEditing false c)
  end.

(** The messages a list of effects puts on the inter-process channel. *)
Definition sent (fx : list Effect) : list (string * Json) :=
  flat_map (fun e =>
    match e with
    | ipc_invoke ch m _ | ipc_send ch m => [(ch, m)]
    | _ => []
    end) fx.

End ItemMixin.

(** ** Concrete hosts, parsers and items for the closed examples *)

Module Samples.
Import ItemMixin.

Definition is_alpha (c : ascii) : bool :=
  let n := nat_of_ascii c in
  ((65 <=? n) && (n <=? 90) || (97 <=? n) && (n <=? 122))%nat.

(** The leading letters of a tag and what follows them. *)
Fixpoint span_alpha (s : string) : string * string :=
  match s with
  | String c s' =>
    if is_alpha c then
      let (w, rest) := span_alpha s' in (String c w, rest)
    else (EmptyString, s)
  | EmptyString => (EmptyString, EmptyString)
  end.

(** A small stand-in for [bcp47.parse]: a tag starts with a language
    subtag of two or three letters, followed by nothing or by [-] and
    further subtags, of which a two-letter one is the region.  For any
    other string it answers as the parser does for a tag it cannot
    parse, with the empty schema, whose [language] is [null]. *)
Definition sample_parse (tag : string) : Bcp47.Schema :=
  let (lang, rest) := span_alpha tag in
  let n := String.length lang in
  if ((2 <=? n) && (n <=? 3))%nat then
    match rest with
    | EmptyString =>
      {| Bcp47.language := Js.val lang; Bcp47.region := Js.null |}
    | String "-" r =>
      {| Bcp47.language := Js.val lang;
         Bcp47.region :=
           if (String.length r =? 2)%nat then Js.val r else Js.null |}
    | _ =>
      {| Bcp47.language := Js.null; Bcp47.region := Js.null |}
    end
  else
    {| Bcp47.language := Js.null; Bcp47.region := Js.null |}.

Definition lang_file (t : string) : Translations.LangFile :=
  {| Translations.tag := t; Translations.path := "lang/" ++ t ++ ".json" |}.

Definition installed : list Translations.LangFile :=
  map lang_file ["de-DE"; "en-GB"; "en-US"; "fr-FR"].

Definition sample_getLanguageFile : string -> Translations.LangFile :=
  Translations.getLanguageFile sample_parse installed.

Definition host (locale platform : string) : Host := {|
  app_getLocale := locale;
  app_getVersion := "3.0.0";
  process_platform := platform
|}.

(** A random source that keeps returning the same byte. *)
Definition constant_rng : Uuid.Rng :=
  {| Uuid.pool := fun _ => x00; Uuid.ptr := 0 |}.

(** A random source that counts upwards. *)
Definition counting_rng : Uuid.Rng :=
  {| Uuid.pool := fun n =>
       match Byte.of_N (N.of_nat n mod 256) with
       | Some b => b
       | None => x00
       end;
     Uuid.ptr := 0 |}.

Definition template (locale platform : string) (r : Uuid.Rng)
  : Config.ConfigOptions * Uuid.Rng :=
  let h := host locale platform in
  ConfigTemplate.getConfigTemplate sample_parse sample_getLanguageFile
    (ConfigTemplate.load h) h r.

Definition notes_dir : Item := {|
  address := 1;
  name := "notes";
  path := "/home/user/notes";
  type := "directory";
  parent := None;
  dirNotFoundFlag := Js.val false
|}.

Definition dead_dir : Item := {|
  address := 2;
  name := "gone";
  path := "/mnt/usb/gone";
  type := "directory";
  parent := None;
  dirNotFoundFlag := Js.val true
|}.

Definition todo_file : Item := {|
  address := 3;
  name := "todo.md";
  path := "/home/user/notes/todo.md";
  type := "file";
  parent := Some {| parent_path := "/home/user/notes" |};
  dirNotFoundFlag := Js.undefined
|}.

Definition component (o : Item) : Component := {|
  obj := o;
  windowId := "main";
  nameEditing := true;
  hasChildren := Js.val true;
  collapsed := Js.val true;
  store := {| selectedDirectory := Some notes_dir; lastLeafId := "leaf-1" |}
|}.

Definition left_click : Event :=
  {| event_type := "click"; button := Js.val 0%Z; altKey := false |}.

End Samples.

(** ** The rest of the item mixin: dragging, context menu, writing targets *)

Module ItemMenu.
Import ItemMixin.

(** A JavaScript value the mixin only passes on. *)
#[warnings="-register-all"] Inductive Value :=
| VUndefined
| VNull
| VBool (b : bool)
| VNum (n : Z)
| VStr (s : string)
| VArr (items : list Value)
| VObj (fields : list (string * Value)).

(** An entry of [$store.state.writingTargets]. *)
Record WritingTarget := {
  target_path : string;
  mode : string;
  count : Z
}.

(** The component instance with everything the remaining methods read:
    the component proper, the name it was registered under, the tree
    item's pending operation, the further properties of [this.obj], and
    two more entries of the store. *)
Record Instance := {
  this : Component;
  options_name : string;                  (* this.$options.name *)
  operationType : Js.maybe string;        (* tree items only *)
  obj_creationtime : Value;
  obj_modtime : Value;
  obj_tags : Value;
  obj_size : Value;
  obj_wordCount : Value;
  obj_ext : Value;
  writingTargets : list WritingTarget;
  store_colouredTags : Value
}.

Definition set_this (c : Component) (i : Instance) : Instance := {|
  this := c;
  options_name := options_name i;
  operationType := operationType i;
  obj_creationtime := obj_creationtime i;
  obj_modtime := obj_modtime i;
  obj_tags := obj_tags i;
  obj_size := obj_size i;
  obj_wordCount := obj_wordCount i;
  obj_ext := obj_ext i;
  writingTargets := writingTargets i;
  store_colouredTags := store_colouredTags i
|}.

Definition set_operationType (v : Js.maybe string) (i : Instance) : Instance := {|
  this := this i;
  options_name := options_name i;
  operationType := v;
  obj_creationtime := obj_creationtime i;
  obj_modtime := obj_modtime i;
  obj_tags := obj_tags i;
  obj_size := obj_size i;
  obj_wordCount := obj_wordCount i;
  obj_ext := obj_ext i;
  writingTargets := writingTargets i;
  store_colouredTags := store_colouredTags i
|}.

(** [methods.getWritingTarget]; [None] is [undefined]. *)
Definition getWritingTarget (i : Instance) (filePath : string)
  : option WritingTarget :=
  let targets := writingTargets i in
  if (List.length targets =? 0)%nat then
    None
  else
    find (fun x => String.eqb (target_path x) filePath) targets.

(** The [data] object handed to the file-properties popover. *)
Module FileProps.
Record t := {
  filepath : string;
  filename : string;
  creationtime : Value;
  modtime : Value;
  tags : Value;
  colouredTags : Value;
  targetValue : Z;
  targetMode : string;
  fileSize : Value;
  type : string;
  words : Value;
  ext : Value
}.
End FileProps.

(** The element a popover is attached to. *)
Inductive Anchor :=
| refs_display_text                       (* this.$refs['display-text'] *)
| el.                                     (* this.$el *)

(** What the menu and the watcher do, beyond the effects of [ItemMixin]. *)
Inductive UiEffect :=
| fx (e : Effect)
| emit (event : string)
| showPopover_DirProps (elem : Anchor) (directoryPath : string)
| showPopover_FileProps (elem : Anchor) (data : FileProps.t)
| closePopover
| focus_input
| setSelectionRange (from to : Z).

(** [event.type === 'auxclick' && event.button === 1], the
    [middleClick] of [requestSelection]. *)
Definition middleClick (event : Event) : bool :=
  String.eqb (event_type event) "auxclick" && Js.is_num (button event) 1.

(** A click that reaches the directory branch of [requestSelection]:
    not a right click, and without Alt unless the item is a root. *)
Definition reaches_directory (c : Component) (event : Event) : Prop :=
  button event <> Js.val 2%Z /\
  (altKey event = false \/ parent (obj c) = None).

(** One [ipcRenderer.invoke('application', { command, payload })
    .catch(err => console.error(err))]. *)
Definition invoke_application (command : string) (payload : Json) : UiEffect :=
  fx (ipc_invoke "application"
        (JObj [("command", JStr command); ("payload", payload)])
        [catch_console_error]).

(** The callback [handleContextMenu] gives to [dirContextMenu]. *)
Definition dirMenuClick (treeItem : bool) (i : Instance) (clickedID : string)
  : Instance * list UiEffect :=
  let obj := obj (this i) in
  if String.eqb clickedID "menu.rename_dir" then
    (set_this (set_nameEditing true (this i)) i, [])
  else if String.eqb clickedID "menu.new_file" then
    if treeItem then (set_operationType (Js.val "createFile") i, [])
    else (i, [emit "create-file"])
  else if String.eqb clickedID "menu.new_dir" then
    if treeItem then (set_operationType (Js.val "createDir") i, [])
    else (i, [emit "create-dir"])
  else if String.eqb clickedID "menu.delete_dir" then
    (i, [invoke_application "dir-delete" (JObj [("path", JStr (path obj))])])
  else if String.eqb clickedID "menu.close_workspace" then
    (i, [invoke_application "root-close" (JStr (path obj))])
  else if String.eqb clickedID "menu.project_build" then
    (i, [invoke_application "dir-project-export" (JStr (path obj))])
  else if String.eqb clickedID "menu.properties" then
    let elem := if treeItem then refs_display_text else el in
    (i, [showPopover_DirProps elem (path obj)])
  else
    (i, []).

(** The callback given to [$showPopover] with the directory properties. *)
Definition dirPropsCallback (data_closePopover : Js.maybe bool)
  : list UiEffect :=
  if Js.is_true data_closePopover then [closePopover] else [].

(** The callback [handleContextMenu] gives to [fileContextMenu]. *)
Definition fileMenuClick (treeItem : bool) (i : Instance) (clickedID : string)
  : Instance * list UiEffect :=
  let obj := obj (this i) in
  if String.eqb clickedID "new-tab" then
    (i, [fx (ipc_invoke "documents-provider" (JObj [
               ("command", JStr "open-file");
               ("payload", JObj [
                  ("path", JStr (path obj));
                  ("windowId", JStr (windowId (this i)));
                  ("newTab", JBool true)
               ])
             ]) [catch_console_error])])
  else if String.eqb clickedID "menu.rename_file" then
    (set_this (set_nameEditing true (this i)) i, [])
  else if String.eqb clickedID "menu.duplicate_file" then
    (i, [invoke_application "file-duplicate" (JObj [
           ("path", JStr (path obj));
           ("windowId", JStr (windowId (this i)));
           ("leafId", JStr (lastLeafId (store (this i))))
         ])])
  else if String.eqb clickedID "menu.delete_file" then
    (i, [invoke_application "file-delete" (JObj [("path", JStr (path obj))])])
  else if String.eqb clickedID "properties" then
    let target := getWritingTarget i (path obj) in
    let data := {|
      FileProps.filepath := path obj;
      FileProps.filename := name obj;
      FileProps.creationtime := obj_creationtime i;
      FileProps.modtime := obj_modtime i;
      FileProps.tags := obj_tags i;
      FileProps.colouredTags := store_colouredTags i;
      FileProps.targetValue :=
        match target with Some t => count t | None => 0%Z end;
      FileProps.targetMode :=
        match target with Some t => mode t | None => "words" end;
      FileProps.fileSize := obj_size i;
      FileProps.type := type obj;
      FileProps.words :=
        if String.eqb (type obj) "file" then obj_wordCount i else VNum 0;
      FileProps.ext := obj_ext i
    |} in
    let elem := if treeItem then refs_display_text else el in
    (i, [showPopover_FileProps elem data])
  else if String.eqb clickedID "menu.close_file" then
    (i, [invoke_application "root-close" (JStr (path obj))])
  else
    (i, []).

(** The two menus an item can open. *)
Inductive Menu :=
| dirContextMenu
| fileContextMenu.

(** [methods.handleContextMenu]: the menu that opens, and what a click on
    one of its entries does to the instance as it is by then. *)
Definition handleContextMenu (i : Instance)
  : Menu * (Instance -> string -> Instance * list UiEffect) :=
  let treeItem := String.eqb (options_name i) "TreeItem" in
  if isDirectory (this i) then
    (dirContextMenu, dirMenuClick treeItem)
  else
    (fileContextMenu, fileMenuClick treeItem).

(** Opening the menu of [i] and clicking the entry [clickedID]. *)
Definition menuClick (i : Instance) (clickedID : string)
  : Instance * list UiEffect :=
  snd (handleContextMenu i) i clickedID.

(** The pointer position of a [DragEvent], as [Number(event.x)] and
    [Number(event.y)] give it, and the size of the window; all in whole
    pixels. *)
Record DragEvent := {
  x : Z;
  y : Z
}.

Record WindowSize := {
  innerWidth : Z;
  innerHeight : Z
}.

(** [methods.onDragHandler] *)
Definition onDragHandler (c : Component) (window : WindowSize)
    (event : DragEvent) : list Effect :=
  if isDirectory c then
    []
  else
    let x := x event in
    let y := y event in
    let w := innerWidth window in
    let h := innerHeight window in
    if (x =? 0)%Z || (y =? 0)%Z || (x =? w)%Z || (y =? h)%Z then
      [stopPropagation; preventDefault;
       ipc_send "window-controls" (JObj [
         ("command", JStr "drag-start");
         ("payload", JObj [("filePath", JStr (path (obj c)))])
       ])]
    else
      [].

(** [String.prototype.lastIndexOf] for a single character: the index of
    its last occurrence, or -1. *)
Fixpoint lastIndexOf_from (s : string) (c : ascii) (i last : Z) : Z :=
  match s with
  | EmptyString => last
  | String a s' =>
    lastIndexOf_from s' c (i + 1) (if Ascii.eqb a c then i else last)
  end.

Definition lastIndexOf (s : string) (c : ascii) : Z :=
  lastIndexOf_from s c 0 (-1).

(** Whether the character occurs in the string. *)
Fixpoint occurs (c : ascii) (s : string) : bool :=
  match s with
  | EmptyString => false
  | String a s' => Ascii.eqb a c || occurs c s'
  end.

(** [watch.nameEditing]: what happens on the next tick after
    [nameEditing] changed to [newVal], given the text of the input
    [this.$refs['name-editing-input']] ([None] when there is no such
    element: the callback throws and the error is logged). *)
Definition watch_nameEditing (newVal : bool) (input : option string)
  : list UiEffect :=
  if negb newVal then
    []
  else
    match input with
    | Some value => [focus_input; setSelectionRange 0 (lastIndexOf value ".")]
    | None => [fx console_error]
    end.

(** The effects of [ItemMixin] among a list of menu effects. *)
Definition plain (l : list UiEffect) : list Effect :=
  flat_map (fun u => match u with fx e => [e] | _ => [] end) l.

(** The [command] and [payload] of a message. *)
Definition command_of (m : Json) : option string :=
  match m with
  | JObj (("command", JStr c) :: _) => Some c
  | _ => None
  end.

Definition payload_of (m : Json) : option Json :=
  match m with
  | JObj [_; ("payload", p)] => Some p
  | _ => None
  end.

(** The payload is the path itself or an object whose first entry is the
    path, under the key [path] or [filePath]. *)
Definition names_path (p : string) (payload : Json) : bool :=
  match payload with
  | JStr s => String.eqb s p
  | JObj ((k, JStr s) :: _) =>
    (String.eqb k "path" || String.eqb k "filePath") && String.eqb s p
  | _ => false
  end.

End ItemMenu.

(** ** Selection on an object without a [parent] property *)

Module AnyParent.
Import ItemMixin ItemMenu.

(** How a call ends. *)
Inductive Completion :=
| returns
| throws_TypeError.

(** [x !== null] *)
Definition is_not_null {A} (x : Js.maybe A) : bool :=
  match x with Js.null => false | _ => true end.

(** What reading [this.obj.parent] gives for a descriptor: null for a
    root, the parent otherwise. *)
Definition parent_of (o : Item) : Js.maybe Parent :=
  match parent o with
  | Some p => Js.val p
  | None => Js.null
  end.

(** [methods.requestSelection] once more, with what reading
    [this.obj.parent] gives passed next to the component, so that it can
    be [undefined] as well: the [obj] prop is declared with the default
    [{}], which has no such property.  Reading [.path] of [undefined]
    throws a TypeError, after [preventDefault] has been called on a
    middle click and before anything is sent. *)
Definition requestSelection_reading
    (obj_parent : Js.maybe Parent) (c : Component) (event : Event)
  : Completion * (Component * list Effect) :=
  if Js.is_true (dirNotFoundFlag (obj c)) then
    (returns, (c, [stopPropagation]))
  else if Js.is_num (button event) 2 then
    (returns, (c, []))
  else
    let middleClick := middleClick event in
    let alt := altKey event in
    let type := type (obj c) in
    let fx0 := if middleClick then [preventDefault] else [] in
    if existsb (String.eqb type) ["file"; "code"] then
      (returns,
       (c, (fx0 ++ [ipc_invoke "documents-provider" (JObj [
               ("command", JStr "open-file");
               ("payload", JObj [
                  ("path", JStr (path (obj c)));
                  ("windowId", JStr (windowId c));
                  ("leafId", JStr (lastLeafId (store c)));
                  ("newTab", JBool (middleClick || (alt && String.eqb type "file")))
               ])
             ]) [catch_console_error]])%list))
    else if alt && is_not_null obj_parent then
      match obj_parent with
      | Js.val p =>
        (returns,
         (c, (fx0 ++ [ipc_invoke "application" (JObj [
                 ("command", JStr "set-open-directory");
                 ("payload", JStr (parent_path p))
               ]) [catch_console_error]])%list))
      | _ =>
        (throws_TypeError, (c, fx0))
      end
    else if String.eqb type "directory" then
      let fx1 :=
        if selectedDir_is_obj c then [toggleFileList]
        else [ipc_invoke "application" (JObj [
                ("command", JStr "set-open-directory");
                ("payload", JStr (path (obj c)))
              ]) [catch_console_error]] in
      let c' :=
        if Js.is_true (hasChildren c)
        then set_collapsed (Js.val (Js.is_false (collapsed c))) c
        else c in
      (returns, (c', (fx0 ++ fx1)%list))
    else
      (returns, (c, fx0)).

End AnyParent.

(** ** More concrete items *)

Module MenuSamples.
Import ItemMixin ItemMenu Samples.

Definition instance (registered : string) (o : Item) : Instance := {|
  this := set_nameEditing false (component o);
  options_name := registered;
  operationType := Js.undefined;
  obj_creationtime := VNum 1700000000000;
  obj_modtime := VNum 1700000360000;
  obj_tags := VArr [VStr "todo"];
  obj_size := VNum 512;
  obj_wordCount := VNum 87;
  obj_ext := VStr ".md";
  writingTargets := [
    {| target_path := "/home/user/notes/draft.md"; mode := "chars"; count := 4000 |};
    {| target_path := "/home/user/notes/todo.md"; mode := "words"; count := 250 |};
    {| target_path := "/home/user/notes/todo.md"; mode := "chars"; count := 9 |}
  ];
  store_colouredTags := VArr []
|}.

Definition script_file : Item := {|
  address := 4;
  name := "plot.py";
  path := "/home/user/notes/plot.py";
  type := "code";
  parent := Some {| parent_path := "/home/user/notes" |};
  dirNotFoundFlag := Js.undefined
|}.

Definition sub_dir : Item := {|
  address := 5;
  name := "archive";
  path := "/home/user/notes/archive";
  type := "directory";
  parent := Some {| parent_path := "/home/user/notes" |};
  dirNotFoundFlag := Js.val false
|}.

(** The default [obj = {}]: every property is undefined.  The strings,
    which [requestSelection] only compares with literals, are left
    empty; what reading [parent] gives is passed separately. *)
Definition default_obj : Item := {|
  address := 0;
  name := "";
  path := "";
  type := "";
  parent := None;
  dirNotFoundFlag := Js.undefined
|}.

Definition middle_click : Event :=
  {| event_type := "auxclick"; button := Js.val 1%Z; altKey := false |}.

Definition alt_click : Event :=
  {| event_type := "click"; button := Js.val 0%Z; altKey := true |}.

Definition window_800_600 : WindowSize :=
  {| innerWidth := 800; innerHeight := 600 |}.

End MenuSamples.

(* ================================================================== *)
(** * Part II: properties                                              *)
(* ================================================================== *)

(** ** The v4 generator *)

Module UuidFacts.
Import Uuid.

Lemma hi_is_hex (b : byte) : is_hex (hi b) = true.
Proof. destruct b; reflexivity. Qed.

Lemma lo_is_hex (b : byte) : is_hex (lo b) = true.
Proof. destruct b; reflexivity. Qed.

(** Byte 6 carries the version nibble. *)
Lemma version_nibble (b : byte) : is_four (hi (and_or b 15 64)) = true.
Proof. destruct b; reflexivity. Qed.

(** Byte 8 carries the variant bits. *)
Lemma variant_nibble (b : byte) : is_variant (hi (and_or b 63 128)) = true.
Proof. destruct b; reflexivity. Qed.

(** The two masked values always fit a byte, so the default of [and_or]
    is never used. *)
Lemma and_or_version (b : byte) :
  Byte.to_N (and_or b 15 64) = N.lor (N.land (Byte.to_N b) 15) 64.
Proof. destruct b; reflexivity. Qed.

Lemma and_or_variant (b : byte) :
  Byte.to_N (and_or b 63 128) = N.lor (N.land (Byte.to_N b) 63) 128.
Proof. destruct b; reflexivity. Qed.

(** The two digits of a byte determine it. *)
Lemma byte_of_digits (b : byte) :
  Byte.of_N (16 * unhex (hi b) + unhex (lo b)) = Some b.
Proof. destruct b; reflexivity. Qed.

Lemma digits_inj (a b : byte) : hi a = hi b -> lo a = lo b -> a = b.
Proof.
  intros Hh Hl.
  pose proof (byte_of_digits a) as Ha.
  rewrite Hh, Hl, byte_of_digits in Ha.
  now injection Ha.
Qed.

Lemma byteToHex_inj (a b : byte) : byteToHex a = byteToHex b -> a = b.
Proof.
  unfold byteToHex. intros H. injection H as Hh Hl.
  now apply digits_inj.
Qed.

(** The next sixteen bytes, one by one. *)
Lemma rng_bytes (r : Rng) :
  fst (rng r) =
  let p := pool r in let i := ptr r in
  [p i; p (1+i); p (2+i); p (3+i); p (4+i); p (5+i); p (6+i); p (7+i);
   p (8+i); p (9+i); p (10+i); p (11+i); p (12+i); p (13+i); p (14+i);
   p (15+i)]%nat.
Proof. reflexivity. Qed.

Lemma stamp_length (l : list byte) : length (stamp l) = length l.
Proof.
  assert (Hu : forall i f (l : list byte), length (update i f l) = length l).
  { intros i f l0; revert i; induction l0 as [|x l0 IH]; intros [|i];
      simpl; auto. }
  unfold stamp. now rewrite !Hu.
Qed.

Ltac sixteen l :=
  do 16 (destruct l as [|? l]; [discriminate|]);
  destruct l; [|discriminate].

(** The text of a sixteen-byte array matches the v4 pattern once the
    array is stamped. *)
Lemma stringify_stamp_valid (l : list byte) :
  length l = 16%nat -> is_uuid_v4 (unsafeStringify (stamp l)) = true.
Proof.
  intros Hlen. sixteen l.
  cbn [stamp update unsafeStringify nth byteToHex append
       is_uuid_v4 v4_pattern repeat app matches].
  rewrite !hi_is_hex, !lo_is_hex, version_nibble, variant_nibble.
  reflexivity.
Qed.

(** Printing loses nothing. *)
Lemma unsafeStringify_inj (l l' : list byte) :
  length l = 16%nat -> length l' = 16%nat ->
  unsafeStringify l = unsafeStringify l' -> l = l'.
Proof.
  intros Hl Hl' H. sixteen l. sixteen l'.
  cbn [unsafeStringify nth byteToHex append] in H.
  injection H; intros.
  repeat (f_equal; [now apply digits_inj|]).
  f_equal. now apply digits_inj.
Qed.

Lemma uuid4_text (r : Rng) :
  fst (uuid4 r) = unsafeStringify (stamp (fst (rng r))).
Proof. reflexivity. Qed.

Lemma rng_length (r : Rng) : length (fst (rng r)) = 16%nat.
Proof. reflexivity. Qed.

Lemma uuid4_valid (r : Rng) : is_uuid_v4 (fst (uuid4 r)) = true.
Proof.
  rewrite uuid4_text. apply stringify_stamp_valid, rng_length.
Qed.

(** Two generated identifiers coincide exactly when the stamped random
    bytes do. *)
Lemma uuid4_eq_iff (r r' : Rng) :
  fst (uuid4 r) = fst (uuid4 r') <->
  stamp (fst (rng r)) = stamp (fst (rng r')).
Proof.
  rewrite !uuid4_text. split.
  - apply unsafeStringify_inj; now rewrite stamp_length, rng_length.
  - now intros ->.
Qed.

End UuidFacts.

(** ** The configuration template *)

Module TemplateFacts.
Import Config ConfigTemplate View.

Lemma distinct_NoDup (l : list string) : distinct l = true -> NoDup l.
Proof.
  induction l as [|x rest IH]; simpl; intros H.
  - constructor.
  - apply andb_prop in H as [Hx Hrest]. constructor; [|auto].
    intros Hin. apply negb_true_iff in Hx.
    assert (Hex : existsb (String.eqb x) rest = true).
    { apply existsb_exists. exists x. split; [exact Hin|apply String.eqb_refl]. }
    congruence.
Qed.

Section AnyCollaborators.

Variable bcp47_parse : string -> Bcp47.Schema.
Variable getLanguageFile : string -> Translations.LangFile.

Let template := getConfigTemplate bcp47_parse getLanguageFile.

(** *** Field by field *)

Lemma appLang_field m h r :
  appLang (fst (template m h r)) =
  resolveLocale bcp47_parse getLanguageFile h.
Proof. reflexivity. Qed.

Lemma uuid_field m h r :
  uuid (fst (template m h r)) = fst (Uuid.uuid4 r).
Proof. reflexivity. Qed.

Lemma version_field m h r :
  version (fst (template m h r)) = ZETTLR_VERSION m.
Proof. reflexivity. Qed.

Lemma attachmentExtensions_field m h r :
  attachmentExtensions (fst (template m h r)) = ATTACHMENT_EXTENSIONS m.
Proof. reflexivity. Qed.

Lemma window_field m h r :
  window (fst (template m h r)) = {|
    nativeAppearance := String.eqb (process_platform h) "darwin";
    vibrancy := String.eqb (process_platform h) "darwin";
    sidebarVisible := false;
    currentSidebarTab := "toc";
    recentGlobalSearches := []
  |}.
Proof. reflexivity. Qed.

(** The version stored is the one the application reported when the
    module was loaded, whatever it reports later. *)
Lemma version_read_at_load h0 h r :
  version (fst (template (load h0) h r)) = app_getVersion h0.
Proof. reflexivity. Qed.

(** The generator hands the random source on, sixteen bytes further. *)
Lemma rng_advances m h r :
  Uuid.ptr (snd (template m h r)) = (Uuid.ptr r + 16)%nat /\
  Uuid.pool (snd (template m h r)) = Uuid.pool r.
Proof. split; reflexivity. Qed.

(** *** Locale fallback *)

(** The first branch of the source: when the parser leaves [language]
    undefined, [appLang] is the literal "en-US" and [getLanguageFile]
    is not consulted, whatever it is. *)
Lemma appLang_fallback_en_US m h r :
  Bcp47.language (bcp47_parse (app_getLocale h)) = Js.undefined ->
  exists cfg r',
    getConfigTemplate bcp47_parse getLanguageFile m h r = (cfg, r') /\
    appLang cfg = "en-US".
Proof.
  intros Hlang.
  exists (fst (template m h r)), (snd (template m h r)). split.
  - subst template. now destruct (getConfigTemplate _ _ m h r).
  - rewrite appLang_field. unfold resolveLocale. now rewrite Hlang.
Qed.

(** *** Determinism up to the identifier *)

(** C2: in a fixed host environment (same locale, version, platform
    and translations) two calls return records that agree on every
    field except [uuid], whatever the random source yields. *)
Theorem template_deterministic_except_uuid m h r1 r2 :
  except_uuid (fst (getConfigTemplate bcp47_parse getLanguageFile m h r1)) =
  except_uuid (fst (getConfigTemplate bcp47_parse getLanguageFile m h r2)).
Proof. reflexivity. Qed.

(** *** Version *)

(** C4: the [version] field is the version string of the running
    application.  The source reads it once, into [ZETTLR_VERSION], when
    the module is loaded in that application; see
    [version_read_at_load]. *)
Theorem version_is_running_version h r :
  version (fst (getConfigTemplate bcp47_parse getLanguageFile (load h) h r))
  = app_getVersion h.
Proof. apply version_read_at_load. Qed.

(** *** Enumerated fields *)

(** C7: every enumerated field of the returned record holds a member
    of the closed set its type declares; in particular [sorting] is
    "natural" or "ascii", [autoDarkMode] one of "off", "system",
    "schedule", "auto", and [fileManagerMode] one of "thin",
    "combined", "expanded". *)
Theorem enumerated_defaults_in_range m h r :
  let cfg := fst (getConfigTemplate bcp47_parse getLanguageFile m h r) in
  Forall (fun p => In (fst p) (snd p)) (enumerated cfg) /\
  In (sorting cfg) ["natural"; "ascii"] /\
  In (autoDarkMode cfg) ["off"; "system"; "schedule"; "auto"] /\
  In (fileManagerMode cfg) ["thin"; "combined"; "expanded"].
Proof.
  cbv zeta. repeat split.
  - unfold enumerated. repeat (constructor; [simpl; tauto|]). constructor.
  - simpl; tauto.
  - simpl; tauto.
  - simpl; tauto.
Qed.

(** *** Attachment extensions *)

(** C8: the [attachmentExtensions] list of the returned record has
    pairwise distinct entries, on every invocation of the loaded
    module. *)
Theorem attachmentExtensions_NoDup h0 h r :
  NoDup (attachmentExtensions
           (fst (getConfigTemplate bcp47_parse getLanguageFile (load h0) h r))).
Proof.
  rewrite attachmentExtensions_field. apply distinct_NoDup. reflexivity.
Qed.

(** *** The identifier *)

(** In the model of the generator, [uuid] is a syntactically valid
    version-4 UUID on every invocation, and two invocations return
    different identifiers exactly when the sixteen random bytes they
    draw differ once the version nibble and the variant bits are
    written over them. *)
Lemma uuid_valid_and_distinct_iff_entropy m h r m' h' r' :
  let c := fst (getConfigTemplate bcp47_parse getLanguageFile m h r) in
  let c' := fst (getConfigTemplate bcp47_parse getLanguageFile m' h' r') in
  Uuid.is_uuid_v4 (uuid c) = true /\
  Uuid.is_uuid_v4 (uuid c') = true /\
  (uuid c <> uuid c' <->
   Uuid.stamp (fst (Uuid.rng r)) <> Uuid.stamp (fst (Uuid.rng r'))).
Proof.
  cbv zeta. rewrite !uuid_field. repeat split.
  - apply UuidFacts.uuid4_valid.
  - apply UuidFacts.uuid4_valid.
  - intros Hne Heq. apply Hne. now apply UuidFacts.uuid4_eq_iff.
  - intros Hne Heq. apply Hne. now apply UuidFacts.uuid4_eq_iff.
Qed.

End AnyCollaborators.

(** *** Literal defaults across hosts *)

(** C3, as amended: every field other than [version], [appLang],
    [uuid], [window.nativeAppearance] and [window.vibrancy] holds the
    same literal default in any two host environments, with any parser
    and any translations; the two window switches are true exactly on
    the platform "darwin". *)
Theorem literal_defaults_except_platform_switches
    parse1 glf1 h1 r1 parse2 glf2 h2 r2 :
  let c1 := fst (getConfigTemplate parse1 glf1 (load h1) h1 r1) in
  let c2 := fst (getConfigTemplate parse2 glf2 (load h2) h2 r2) in
  literal_part c1 = literal_part c2 /\
  nativeAppearance (window c1) = String.eqb (process_platform h1) "darwin" /\
  vibrancy (window c1) = String.eqb (process_platform h1) "darwin".
Proof. cbv zeta. repeat split; reflexivity. Qed.

(** On one platform the whole window group is the same too. *)
Lemma literal_defaults_same_platform parse1 glf1 h1 r1 parse2 glf2 h2 r2 :
  process_platform h1 = process_platform h2 ->
  except_version_appLang_uuid
    (fst (getConfigTemplate parse1 glf1 (load h1) h1 r1)) =
  except_version_appLang_uuid
    (fst (getConfigTemplate parse2 glf2 (load h2) h2 r2)).
Proof.
  intros Hp. unfold except_version_appLang_uuid.
  rewrite !window_field, Hp. reflexivity.
Qed.

(** *** Locale matching against the installed translations *)

Section InstalledTranslations.
Import Translations.

Variable bcp47_parse : string -> Bcp47.Schema.
Variable installed : list LangFile.

Let lookup := Translations.getLanguageFile bcp47_parse installed.
Let same (t : LangFile) (query : string) : bool :=
  Bcp47.same_language (bcp47_parse (tag t)) (bcp47_parse query).

Lemma lookup_exact query :
  (exists t, In t installed /\ tag t = query) -> tag (lookup query) = query.
Proof.
  intros [t [Hin Ht]]. subst lookup. unfold Translations.getLanguageFile.
  destruct (find (fun c => String.eqb (tag c) query) installed) as [e|] eqn:E.
  - apply find_some in E as [_ E]. now apply String.eqb_eq.
  - apply find_none with (x := t) in E; [|exact Hin].
    rewrite Ht, String.eqb_refl in E. discriminate.
Qed.

Lemma lookup_close query :
  (forall t, In t installed -> tag t <> query) ->
  (exists t, In t installed /\ same t query = true) ->
  exists t, In t installed /\ same t query = true /\ lookup query = t.
Proof.
  intros Hno [t [Hin Ht]]. subst lookup same.
  unfold Translations.getLanguageFile.
  destruct (find (fun c => String.eqb (tag c) query) installed) as [e|] eqn:E.
  - apply find_some in E as [Hine E]. apply String.eqb_eq in E.
    now destruct (Hno e Hine).
  - clear E.
    destruct (find _ installed) as [c|] eqn:F.
    + apply find_some in F as [Hc F]. now exists c.
    + apply find_none with (x := t) in F; [|exact Hin].
      cbv beta in Ht, F. congruence.
Qed.

Lemma lookup_fallback query :
  (forall t, In t installed -> tag t <> query /\ same t query = false) ->
  lookup query = fallback.
Proof.
  intros Hno. subst lookup same. unfold Translations.getLanguageFile.
  destruct (find (fun c => String.eqb (tag c) query) installed) as [e|] eqn:E.
  - apply find_some in E as [Hine E]. apply String.eqb_eq in E.
    now destruct (Hno e Hine) as [Hne _].
  - clear E.
    destruct (find _ installed) as [c|] eqn:F; [|reflexivity].
    apply find_some in F as [Hc F].
    destruct (Hno c Hc) as [_ Hs]. cbv beta in Hs, F. congruence.
Qed.

(** C6: when the host locale parses with a language subtag,
    [appLang] is the tag of the matching installed translation: the
    locale itself when a translation carries exactly that tag;
    otherwise the tag of an installed translation of the same
    language when there is one; otherwise the fallback "en-US". *)
Theorem appLang_best_match m h r :
  let locale := app_getLocale h in
  let cfg :=
    fst (getConfigTemplate bcp47_parse
           (Translations.getLanguageFile bcp47_parse installed) m h r) in
  Js.is_undefined (Bcp47.language (bcp47_parse locale)) = false ->
  ((exists t, In t installed /\ tag t = locale) -> appLang cfg = locale) /\
  ((forall t, In t installed -> tag t <> locale) ->
   (exists t, In t installed /\
      Bcp47.same_language (bcp47_parse (tag t)) (bcp47_parse locale) = true) ->
   exists t, In t installed /\
      Bcp47.same_language (bcp47_parse (tag t)) (bcp47_parse locale) = true /\
      appLang cfg = tag t) /\
  ((forall t, In t installed ->
      tag t <> locale /\
      Bcp47.same_language (bcp47_parse (tag t)) (bcp47_parse locale) = false) ->
   appLang cfg = "en-US").
Proof.
  cbv zeta. intros Hdef. rewrite appLang_field. unfold resolveLocale.
  rewrite Hdef. repeat split.
  - apply lookup_exact.
  - intros Hno Hex. destruct (lookup_close _ Hno Hex) as [t [Hin [Hs Ht]]].
    exists t. repeat split; [exact Hin|exact Hs|]. subst lookup.
    now rewrite Ht.
  - intros Hno. fold lookup. now rewrite (lookup_fallback _ Hno).
Qed.


(** A locale whose [language] the parser reports as [null] is handed to
    the lookup like any other; it then resolves to "en-US" unless a
    translation carries that very string as its tag. *)
Lemma appLang_null_language m h r :
  Bcp47.language (bcp47_parse (app_getLocale h)) = Js.null ->
  (forall t, In t installed -> tag t <> app_getLocale h) ->
  appLang (fst (getConfigTemplate bcp47_parse
                  (Translations.getLanguageFile bcp47_parse installed) m h r))
  = "en-US".
Proof.
  intros Hnull Hno. rewrite appLang_field. unfold resolveLocale.
  rewrite Hnull. cbn [Js.is_undefined]. fold lookup.
  rewrite lookup_fallback; [reflexivity|].
  intros t Hin. split; [now apply Hno|].
  subst same. cbv beta. unfold Bcp47.same_language. rewrite Hnull.
  now destruct (Bcp47.language (bcp47_parse (tag t))).
Qed.

End InstalledTranslations.

(** *** Closed instances *)

Import Samples.

Example template_de_on_linux :
  let cfg := fst (Samples.template "de" "linux" counting_rng) in
  appLang cfg = "de-DE" /\
  version cfg = "3.0.0" /\
  nativeAppearance (window cfg) = false /\
  uuid cfg = "00010203-0405-4607-8809-0a0b0c0d0e0f".
Proof. repeat split; reflexivity. Qed.

Example template_twice :
  let first := Samples.template "fr-FR" "darwin" counting_rng in
  let second := Samples.template "fr-FR" "darwin" (snd first) in
  uuid (fst first) = "00010203-0405-4607-8809-0a0b0c0d0e0f" /\
  uuid (fst second) = "10111213-1415-4617-9819-1a1b1c1d1e1f" /\
  vibrancy (window (fst second)) = true.
Proof. repeat split; reflexivity. Qed.


Lemma appLang_best_match_witness :
  appLang (fst (Samples.template "en-GB" "linux" counting_rng)) = "en-GB" /\
  (exists t, In t installed /\
     appLang (fst (Samples.template "de" "linux" counting_rng)) =
     Translations.tag t) /\
  appLang (fst (Samples.template "ja-JP" "linux" counting_rng)) = "en-US".
Proof.
  split; [|split].
  - apply (appLang_best_match sample_parse installed
             (load (host "en-GB" "linux")) (host "en-GB" "linux") counting_rng).
    + reflexivity.
    + exists (lang_file "en-GB"). split; [simpl; tauto|reflexivity].
  - destruct (appLang_best_match sample_parse installed
                (load (host "de" "linux")) (host "de" "linux") counting_rng)
      as [_ [Hclose _]]; [reflexivity|].
    destruct Hclose as [t [Hin [_ Ht]]].
    + intros t Hin. simpl in Hin.
      intuition (subst; discriminate).
    + exists (lang_file "de-DE"). split; [simpl; tauto|reflexivity].
    + exists t. split; [exact Hin|exact Ht].
  - apply (appLang_best_match sample_parse installed
             (load (host "ja-JP" "linux")) (host "ja-JP" "linux") counting_rng).
    + reflexivity.
    + intros t Hin. simpl in Hin.
      intuition (subst; try discriminate; reflexivity).
Defined.

(** C3 as stated fails: the window group differs between macOS and
    any other platform. *)
Lemma platform_switches_differ :
  except_version_appLang_uuid
    (fst (Samples.template "en-US" "darwin" constant_rng)) <>
  except_version_appLang_uuid
    (fst (Samples.template "en-US" "linux" constant_rng)).
Proof.
  intros H.
  apply (f_equal (fun c => nativeAppearance (window c))) in H.
  discriminate H.
Qed.

(** The identifier is a function of the bytes drawn: were the same
    sixteen bytes drawn twice, the identifier would repeat. *)
Example uuid_repeats_on_repeated_entropy :
  let first := Samples.template "en-US" "linux" constant_rng in
  let second := Samples.template "en-US" "linux" (snd first) in
  uuid (fst first) = "00000000-0000-4000-8000-000000000000" /\
  uuid (fst second) = uuid (fst first).
Proof. split; reflexivity. Qed.

End TemplateFacts.

(** ** The item mixin *)

Module ItemFacts.
Import ItemMixin.

(** Once the promise of a rename settles, the [finally] callback has
    run: the item is no longer being renamed, however the promise
    ended and whatever state the component was in by then. *)
Lemma rename_chain_clears_nameEditing (o : Outcome) (c : Component) :
  nameEditing
    (fst (settle o [catch_console_error; finally_nameEditing_false] c))
  = false.
Proof. destruct o; reflexivity. Qed.

(** Settling touches nothing but [nameEditing]. *)
Lemma settle_frame (o : Outcome) (chain : list Callback) (c : Component) :
  let c' := fst (settle o chain c) in
  obj c' = obj c /\ windowId c' = windowId c /\
  hasChildren c' = hasChildren c /\ collapsed c' = collapsed c /\
  store c' = store c.
Proof.
  cbv zeta. revert o c.
  induction chain as [|cb rest IH]; intros o c; [simpl; tauto|].
  destruct cb; simpl.
  - destruct o.
    + apply IH.
    + specialize (IH fulfilled c).
      destruct (settle fulfilled rest c) as [c' fx]. exact IH.
  - specialize (IH o (set_nameEditing false c)). simpl in IH. exact IH.
Qed.

(** A rejected promise is logged exactly once by a [catch] callback. *)
Lemma rename_chain_logs (c : Component) :
  snd (settle rejected [catch_console_error; finally_nameEditing_false] c)
    = [console_error] /\
  snd (settle fulfilled [catch_console_error; finally_nameEditing_false] c)
    = [].
Proof. split; reflexivity. Qed.

(** C9: on an item whose directory was not found, [requestSelection]
    stops the propagation of the triggering event, whatever the event
    is, sends nothing over the inter-process channel (neither [invoke]
    nor [send]) and leaves the component as it was. *)
Theorem requestSelection_dead_directory (c : Component) (event : Event) :
  dirNotFoundFlag (obj c) = Js.val true ->
  let (c', fx) := requestSelection c event in
  In stopPropagation fx /\
  Forall (fun e => is_ipc e = false) fx /\
  sent fx = [] /\
  c' = c.
Proof.
  intros Hdead. unfold requestSelection. rewrite Hdead. cbn [Js.is_true].
  repeat split.
  - now left.
  - repeat constructor.
Qed.

(** C10: [finishNameEditing] with the item's current name sends
    nothing and leaves the component, [nameEditing] included, as it
    was.  With a different name it sends exactly one message, on the
    "application" channel, whose command is "dir-rename" for a
    directory and "file-rename" for anything else and whose payload is
    the item's path and the new name; the call itself leaves the
    component as it was, and when the promise of that message settles,
    fulfilled or rejected, [nameEditing] is false. *)
Theorem finishNameEditing_rename (c : Component) (newName : string) :
  (newName = name (obj c) ->
   finishNameEditing c newName = (c, [])) /\
  (newName <> name (obj c) ->
   exists chain,
     finishNameEditing c newName =
       (c, [ipc_invoke "application" (JObj [
              ("command",
               JStr (if String.eqb (type (obj c)) "directory"
                     then "dir-rename" else "file-rename"));
              ("payload", JObj [
                 ("path", JStr (path (obj c)));
                 ("name", JStr newName)])])
            chain]) /\
     forall (o : Outcome) (later : Component),
       nameEditing (fst (settle o chain later)) = false).
Proof.
  unfold finishNameEditing. split.
  - intros ->. now rewrite String.eqb_refl.
  - intros Hne. apply String.eqb_neq in Hne. rewrite Hne.
    exists [catch_console_error; finally_nameEditing_false]. split.
    + reflexivity.
    + apply rename_chain_clears_nameEditing.
Qed.

(** *** Closed instances *)

Import Samples.

Example select_open_directory :
  requestSelection (component notes_dir) left_click =
  (set_collapsed (Js.val false) (component notes_dir), [toggleFileList]).
Proof. reflexivity. Qed.

Example select_file :
  sent (snd (requestSelection (component todo_file) left_click)) =
  [("documents-provider", JObj [
      ("command", JStr "open-file");
      ("payload", JObj [
         ("path", JStr "/home/user/notes/todo.md");
         ("windowId", JStr "main");
         ("leafId", JStr "leaf-1");
         ("newTab", JBool false)])])].
Proof. reflexivity. Qed.

Lemma requestSelection_dead_directory_witness :
  let (c', fx) := requestSelection (component dead_dir) left_click in
  In stopPropagation fx /\
  Forall (fun e => is_ipc e = false) fx /\
  sent fx = [] /\
  c' = component dead_dir.
Proof.
  apply (requestSelection_dead_directory (component dead_dir) left_click).
  reflexivity.
Defined.

Lemma finishNameEditing_rename_witness :
  finishNameEditing (component todo_file) "todo.md"
    = (component todo_file, []) /\
  sent (snd (finishNameEditing (component todo_file) "done.md")) =
    [("application", JObj [
        ("command", JStr "file-rename");
        ("payload", JObj [
           ("path", JStr "/home/user/notes/todo.md");
           ("name", JStr "done.md")])])] /\
  sent (snd (finishNameEditing (component notes_dir) "archive")) =
    [("application", JObj [
        ("command", JStr "dir-rename");
        ("payload", JObj [
           ("path", JStr "/home/user/notes");
           ("name", JStr "archive")])])].
Proof.
  split; [|split].
  - apply (finishNameEditing_rename (component todo_file) "todo.md").
    reflexivity.
  - destruct (finishNameEditing_rename (component todo_file) "done.md")
      as [_ Hsend].
    destruct Hsend as [chain [Hcall _]]; [discriminate|].
    rewrite Hcall. reflexivity.
  - destruct (finishNameEditing_rename (component notes_dir) "archive")
      as [_ Hsend].
    destruct Hsend as [chain [Hcall _]]; [discriminate|].
    rewrite Hcall. reflexivity.
Defined.

End ItemFacts.

(** ** The item mixin: selection *)

Module SelectionFacts.
Import ItemMixin ItemMenu.

Lemma is_true_iff (x : Js.maybe bool) : Js.is_true x = true <-> x = Js.val true.
Proof.
  destruct x as [| |[|]]; simpl; split; intros H;
    try discriminate; try reflexivity.
Qed.

Lemma is_true_false_iff (x : Js.maybe bool) :
  Js.is_true x = false <-> x <> Js.val true.
Proof.
  rewrite <- is_true_iff. destruct (Js.is_true x); split; intros H;
    try discriminate; try reflexivity; try congruence.
Qed.

Lemma is_num_iff (x : Js.maybe Z) (n : Z) :
  Js.is_num x n = true <-> x = Js.val n.
Proof.
  destruct x as [| |m]; simpl; split; intros H; try discriminate.
  - apply Z.eqb_eq in H. now subst.
  - injection H as ->. apply Z.eqb_refl.
Qed.

Lemma is_num_false_iff (x : Js.maybe Z) (n : Z) :
  Js.is_num x n = false <-> x <> Js.val n.
Proof.
  rewrite <- is_num_iff. destruct (Js.is_num x n); split; intros H;
    try discriminate; try reflexivity; try congruence.
Qed.

Lemma middleClick_iff (event : Event) :
  middleClick event = true <->
  event_type event = "auxclick" /\ button event = Js.val 1%Z.
Proof.
  unfold middleClick. rewrite andb_true_iff, String.eqb_eq, is_num_iff.
  reflexivity.
Qed.

(** Case analysis along the guards of [requestSelection], in the order
    the source tests them. *)
Ltac guards c event :=
  unfold requestSelection;
  destruct (Js.is_true (dirNotFoundFlag (obj c))) eqn:Hdead;
  [|destruct (Js.is_num (button event) 2) eqn:Hright;
    [|fold (middleClick event);
      destruct (middleClick event) eqn:Hmiddle;
      cbn [existsb];
      destruct (String.eqb (type (obj c)) "file") eqn:Hfile;
      destruct (String.eqb (type (obj c)) "code") eqn:Hcode;
      cbn [orb];
      try (destruct (altKey event) eqn:Halt;
           destruct (parent (obj c)) as [p|] eqn:Hparent;
           try (destruct (String.eqb (type (obj c)) "directory") eqn:Hdir;
                try (destruct (selectedDir_is_obj c) eqn:Hsel;
                     destruct (Js.is_true (hasChildren c)) eqn:Hkids)))]].

(** Turning the outcome of string tests into equations. *)
Ltac strings :=
  repeat match goal with
  | H : String.eqb _ _ = true |- _ => apply String.eqb_eq in H
  | H : String.eqb _ _ = false |- _ => apply String.eqb_neq in H
  end.

(** X1: [requestSelection] writes to nothing but [collapsed], and to that
    only on a directory that is there and has children. *)
Theorem requestSelection_frame (c : Component) (event : Event) :
  let c' := fst (requestSelection c event) in
  obj c' = obj c /\ windowId c' = windowId c /\
  nameEditing c' = nameEditing c /\ hasChildren c' = hasChildren c /\
  store c' = store c /\
  (c' = c \/
   (type (obj c) = "directory" /\ hasChildren c = Js.val true /\
    dirNotFoundFlag (obj c) <> Js.val true /\
    c' = set_collapsed (Js.val (Js.is_false (collapsed c))) c)).
Proof.
  cbv zeta. guards c event; cbn [fst];
    repeat (split; [reflexivity|]); try (now left);
    right; repeat split;
    try (now apply String.eqb_eq); try (now apply is_true_iff);
    now apply is_true_false_iff.
Qed.

(** X2: A call of [requestSelection] puts at most one message on the
    inter-process channel, always with [invoke] and never with [send],
    and always with the handler that logs a rejection. *)
Theorem requestSelection_one_invoke (c : Component) (event : Event) :
  let out := snd (requestSelection c event) in
  (List.length (sent out) <= 1)%nat /\
  forall e, In e out ->
    match e with
    | ipc_send _ _ => False
    | ipc_invoke _ _ chain => chain = [catch_console_error]
    | _ => True
    end.
Proof.
  cbv zeta. guards c event; cbn [snd app sent flat_map List.length]; split;
    try lia; intros e He; simpl in He;
    repeat (destruct He as [<-|He]; [exact I || reflexivity|]);
    now destruct He.
Qed.

(** On a descriptor, whose [parent] is null or an object, the method
    returns, and does what [requestSelection] says. *)
Lemma requestSelection_reading_descriptor (c : Component) (event : Event) :
  AnyParent.requestSelection_reading (AnyParent.parent_of (obj c)) c event =
  (AnyParent.returns, requestSelection c event).
Proof.
  unfold AnyParent.requestSelection_reading, AnyParent.parent_of.
  guards c event; try reflexivity;
    destruct (parent (obj c)); try discriminate; reflexivity.
Qed.

(** X3: When [requestSelection] talks to the main process: the item is
    there, the click is not a right click, and the item is a file or a
    code file, or Alt is held and the item's parent is an object, or the
    item is a directory other than the selected one and Alt is not held
    or the parent is null.  With Alt held on an object without a
    [parent] property that is neither a file nor a code file the call
    throws instead, with nothing sent and nothing written. *)
Theorem requestSelection_reading_sends_iff
    (obj_parent : Js.maybe Parent) (c : Component) (event : Event) :
  let result := AnyParent.requestSelection_reading obj_parent c event in
  (sent (snd (snd result)) <> [] <->
   dirNotFoundFlag (obj c) <> Js.val true /\
   button event <> Js.val 2%Z /\
   (type (obj c) = "file" \/ type (obj c) = "code" \/
    (altKey event = true /\ exists p, obj_parent = Js.val p) \/
    (type (obj c) = "directory" /\ selectedDir_is_obj c = false /\
     (altKey event = false \/ obj_parent = Js.null)))) /\
  (fst result = AnyParent.throws_TypeError <->
   dirNotFoundFlag (obj c) <> Js.val true /\
   button event <> Js.val 2%Z /\
   type (obj c) <> "file" /\ type (obj c) <> "code" /\
   altKey event = true /\ obj_parent = Js.undefined) /\
  (fst result = AnyParent.throws_TypeError ->
   sent (snd (snd result)) = [] /\ fst (snd result) = c).
Proof.
  cbv zeta. rewrite <- !is_true_false_iff, <- !is_num_false_iff.
  unfold AnyParent.requestSelection_reading.
  destruct (Js.is_true (dirNotFoundFlag (obj c))) eqn:Hdead;
  [|destruct (Js.is_num (button event) 2) eqn:Hright;
    [|cbn [existsb];
      destruct (middleClick event);
      destruct (String.eqb (type (obj c)) "file") eqn:Hfile;
      destruct (String.eqb (type (obj c)) "code") eqn:Hcode;
      cbn [orb];
      try (destruct (altKey event) eqn:Halt;
           destruct obj_parent as [| |p] eqn:Hparent;
           cbn [andb AnyParent.is_not_null];
           try (destruct (String.eqb (type (obj c)) "directory") eqn:Hdir;
                try destruct (selectedDir_is_obj c) eqn:Hsel))]];
    cbn [fst snd sent flat_map app]; strings;
    (split; [split; [intros Hsent|intros [Hd [Hb Hwhy]]]
            |split; [split; [intros Hthrow
                            |intros [Hd [Hb [Hnf [Hnc [Ha Hp]]]]]]
                    |intros Hthrow]]);
    try discriminate; try reflexivity; try congruence;
    try (now destruct Hsent);
    try (split; reflexivity);
    try (repeat split; try reflexivity; try assumption; tauto);
    try (repeat split; try reflexivity; try assumption;
         right; right; left; split; [reflexivity|eexists; reflexivity]);
    try (destruct Hwhy as [?|[?|[[? [? ?]]|[? [? [?|?]]]]]];
         congruence).
Qed.

(** X4: The propagation of the event is stopped exactly on an item whose
    directory was not found, and the default action is prevented exactly
    on a middle click on an item that is there. *)
Theorem requestSelection_event_calls (c : Component) (event : Event) :
  let out := snd (requestSelection c event) in
  (In stopPropagation out <-> dirNotFoundFlag (obj c) = Js.val true) /\
  (In preventDefault out <->
   dirNotFoundFlag (obj c) <> Js.val true /\
   event_type event = "auxclick" /\ button event = Js.val 1%Z).
Proof.
  cbv zeta. rewrite <- is_true_false_iff, <- is_true_iff, <- middleClick_iff.
  assert (Hmr : Js.is_num (button event) 2 = true -> middleClick event = false).
  { intros H. apply is_num_iff in H. unfold middleClick. rewrite H.
    apply andb_false_r. }
  guards c event; try rewrite (Hmr eq_refl); cbn [snd app In];
    (split; (split; intros H));
    try reflexivity; try discriminate; try tauto;
    try (now destruct H); try (destruct H; discriminate);
    try (repeat (destruct H as [H|H]; try discriminate); now destruct H).
Qed.

(** X5: A click on a file or a code file that is not a right click asks for
    exactly that file, in this window and the last active leaf, and
    leaves the component alone.  A new tab is asked for exactly on a
    middle click, or with Alt held on an item of type "file"; Alt on a
    code file opens it in place. *)
Theorem requestSelection_opens_file (c : Component) (event : Event) :
  dirNotFoundFlag (obj c) <> Js.val true ->
  button event <> Js.val 2%Z ->
  type (obj c) = "file" \/ type (obj c) = "code" ->
  exists newTab : bool,
    fst (requestSelection c event) = c /\
    sent (snd (requestSelection c event)) =
      [("documents-provider", JObj [
          ("command", JStr "open-file");
          ("payload", JObj [
             ("path", JStr (path (obj c)));
             ("windowId", JStr (windowId c));
             ("leafId", JStr (lastLeafId (store c)));
             ("newTab", JBool newTab)])])] /\
    (newTab = true <->
     (event_type event = "auxclick" /\ button event = Js.val 1%Z) \/
     (altKey event = true /\ type (obj c) = "file")).
Proof.
  intros Hlive Hnot2 Htype.
  apply is_true_false_iff in Hlive. apply is_num_false_iff in Hnot2.
  exists (middleClick event || (altKey event && String.eqb (type (obj c)) "file")).
  assert (Hfc : existsb (String.eqb (type (obj c))) ["file"; "code"] = true).
  { destruct Htype as [-> | ->]; reflexivity. }
  unfold requestSelection. rewrite Hlive, Hnot2, Hfc.
  fold (middleClick event). repeat split.
  - destruct (middleClick event); reflexivity.
  - rewrite orb_true_iff, andb_true_iff, String.eqb_eq, middleClick_iff. tauto.
  - rewrite orb_true_iff, andb_true_iff, String.eqb_eq, middleClick_iff. tauto.
Qed.

Lemma directory_click (c : Component) (event : Event) :
  type (obj c) = "directory" ->
  dirNotFoundFlag (obj c) <> Js.val true ->
  hasChildren c = Js.val true ->
  reaches_directory c event ->
  fst (requestSelection c event) =
  set_collapsed (Js.val (Js.is_false (collapsed c))) c.
Proof.
  rewrite <- is_true_false_iff, <- is_true_iff.
  unfold reaches_directory. rewrite <- is_num_false_iff.
  intros Htype Hlive Hkids0 [Hnot2 Halt0].
  guards c event; try discriminate; try reflexivity;
    rewrite Htype in *; try discriminate;
    destruct Halt0; discriminate.
Qed.

(** X6: Clicking a directory with children twice brings the component back
    to where it was: the first click flips [collapsed], the second flips
    it back.  This needs [collapsed] to hold a boolean to begin with. *)
Theorem requestSelection_twice_restores
    (c : Component) (first second : Event) (b : bool) :
  type (obj c) = "directory" ->
  dirNotFoundFlag (obj c) <> Js.val true ->
  hasChildren c = Js.val true ->
  collapsed c = Js.val b ->
  reaches_directory c first ->
  reaches_directory c second ->
  collapsed (fst (requestSelection c first)) = Js.val (negb b) /\
  fst (requestSelection (fst (requestSelection c first)) second) = c.
Proof.
  intros Htype Hlive Hkids Hcol H1 H2.
  rewrite (directory_click c first Htype Hlive Hkids H1).
  split.
  - cbn [set_collapsed collapsed]. rewrite Hcol. now destruct b.
  - rewrite directory_click; try assumption.
    destruct c as [o w n hk col st]. cbn in *. subst col.
    unfold set_collapsed; cbn. now destruct b.
Qed.

(** X7: The file list is toggled exactly by a click that reaches the
    directory branch on the directory that is already selected; such a
    click sends nothing. *)
Theorem requestSelection_toggles_iff (c : Component) (event : Event) :
  let out := snd (requestSelection c event) in
  (In toggleFileList out <->
   dirNotFoundFlag (obj c) <> Js.val true /\
   type (obj c) = "directory" /\
   reaches_directory c event /\
   selectedDir_is_obj c = true) /\
  (In toggleFileList out -> sent out = []).
Proof.
  cbv zeta. unfold reaches_directory.
  rewrite <- is_true_false_iff, <- is_num_false_iff.
  guards c event; cbn [snd app In sent flat_map];
    strings;
    (split; [split; [intros H|intros [Hd [Ht [[Hb Ha] Hs]]]]|intros H]);
    try reflexivity; try discriminate; try congruence;
    try (now destruct H);
    try (repeat (destruct H as [H|H]; try discriminate); now destruct H);
    try (destruct Ha; congruence);
    try (left; reflexivity); try (right; left; reflexivity);
    try (repeat split; try reflexivity; try assumption; tauto).
Qed.

(** X8: With Alt held, a click on anything but a file or a code file that
    lies below a directory selects that parent directory; the item itself
    is neither selected nor expanded or collapsed, and the file list is
    not toggled. *)
Theorem requestSelection_alt_selects_parent
    (c : Component) (event : Event) (p : Parent) :
  dirNotFoundFlag (obj c) <> Js.val true ->
  button event <> Js.val 2%Z ->
  type (obj c) <> "file" -> type (obj c) <> "code" ->
  altKey event = true ->
  parent (obj c) = Some p ->
  fst (requestSelection c event) = c /\
  sent (snd (requestSelection c event)) =
    [("application", JObj [
        ("command", JStr "set-open-directory");
        ("payload", JStr (parent_path p))])] /\
  ~ In toggleFileList (snd (requestSelection c event)).
Proof.
  rewrite <- is_true_false_iff, <- is_num_false_iff.
  intros Hlive Hnot2 Hnf Hnc Halt0 Hp0.
  apply String.eqb_neq in Hnf, Hnc.
  unfold requestSelection. cbn [existsb].
  rewrite Hlive, Hnot2, Hnf, Hnc, Halt0, Hp0. fold (middleClick event).
  destruct (middleClick event); cbn [orb fst snd app sent flat_map In];
    repeat split; intros H;
    repeat (destruct H as [H|H]; try discriminate); exact H.
Qed.

End SelectionFacts.

(** ** The item mixin: dragging, context menu, renaming *)

Module MenuFacts.
Import ItemMixin ItemMenu.

Ltac strings :=
  repeat match goal with
  | H : String.eqb _ _ = true |- _ => apply String.eqb_eq in H
  | H : String.eqb _ _ = false |- _ => apply String.eqb_neq in H
  end.

(** *** Dragging *)

(** X9: A drag is handed to the main process exactly when the item is not a
    directory and the pointer is on an edge of the window; it is then
    one [send] of drag-start with the item's path, after the event has
    been stopped and its default prevented.  Otherwise nothing happens. *)
Theorem onDragHandler_edge (c : Component) (w : WindowSize) (event : DragEvent) :
  let out := onDragHandler c w event in
  (out <> [] <->
   type (obj c) <> "directory" /\
   (x event = 0 \/ y event = 0 \/
    x event = innerWidth w \/ y event = innerHeight w)%Z) /\
  (out = [] \/
   out = [stopPropagation; preventDefault;
          ipc_send "window-controls" (JObj [
            ("command", JStr "drag-start");
            ("payload", JObj [("filePath", JStr (path (obj c)))])])]).
Proof.
  cbv zeta. unfold onDragHandler, isDirectory.
  destruct (String.eqb (type (obj c)) "directory") eqn:Hdir; strings.
  - split; [|now left]. split; [intros H; now destruct H|tauto].
  - destruct ((x event =? 0)%Z || (y event =? 0)%Z ||
              (x event =? innerWidth w)%Z || (y event =? innerHeight w)%Z)
      eqn:Hedge.
    + split; [|now right]. split; [intros _|discriminate].
      split; [exact Hdir|].
      rewrite !orb_true_iff, !Z.eqb_eq in Hedge. tauto.
    + split; [|now left]. split; [intros H; now destruct H|].
      intros [_ H]. rewrite !orb_false_iff, !Z.eqb_neq in Hedge. tauto.
Qed.

(** *** Writing targets *)

Lemma find_first {A} (f : A -> bool) (l : list A) :
  match find f l with
  | Some a =>
    f a = true /\
    exists before after,
      l = (before ++ a :: after)%list /\ forall u, In u before -> f u = false
  | None => forall u, In u l -> f u = false
  end.
Proof.
  induction l as [|a l IH]; simpl.
  - intros u [].
  - destruct (f a) eqn:Ha.
    + split; [exact Ha|]. exists [], l. split; [reflexivity|intros u []].
    + destruct (find f l) as [t|].
      * destruct IH as [Ht [before [after [-> Hb]]]]. split; [exact Ht|].
        exists (a :: before), after. split; [reflexivity|].
        intros u [<-|Hu]; auto.
      * intros u [<-|Hu]; auto.
Qed.

Lemma find_skip {A} (f : A -> bool) (before : list A) (a : A) (after : list A) :
  (forall u, In u before -> f u = false) -> f a = true ->
  find f (before ++ a :: after) = Some a.
Proof.
  intros Hb Ha. induction before as [|b before IH]; simpl.
  - now rewrite Ha.
  - rewrite (Hb b (or_introl eq_refl)). apply IH.
    intros u Hu. apply Hb. now right.
Qed.

Lemma getWritingTarget_find (i : Instance) (filePath : string) :
  getWritingTarget i filePath =
  find (fun t => String.eqb (target_path t) filePath) (writingTargets i).
Proof.
  unfold getWritingTarget. now destruct (writingTargets i).
Qed.

(** X10: [getWritingTarget] returns the first target recorded for the path,
    and [undefined] exactly when none is recorded for it (an empty list
    included). *)
Theorem getWritingTarget_first (i : Instance) (filePath : string) :
  match getWritingTarget i filePath with
  | Some t =>
    target_path t = filePath /\
    exists before after,
      writingTargets i = (before ++ t :: after)%list /\
      forall u, In u before -> target_path u <> filePath
  | None =>
    forall u, In u (writingTargets i) -> target_path u <> filePath
  end.
Proof.
  rewrite getWritingTarget_find.
  pose proof (find_first (fun t => String.eqb (target_path t) filePath)
                (writingTargets i)) as H.
  destruct (find _ (writingTargets i)) as [t|].
  - destruct H as [Ht [before [after [Hl Hb]]]]. split; [now apply String.eqb_eq|].
    exists before, after. split; [exact Hl|].
    intros u Hu. apply String.eqb_neq. now apply Hb.
  - intros u Hu. apply String.eqb_neq. now apply H.
Qed.

(** *** The context menu *)

(** Case analysis along the entries of the two menus, in the order the
    source tests them. *)
Ltac entries i id :=
  unfold menuClick, handleContextMenu;
  destruct (isDirectory (this i)) eqn:Hkind; cbn [snd fst];
  [unfold dirMenuClick|unfold fileMenuClick];
  repeat match goal with
  | |- context [if String.eqb id ?s then _ else _] =>
    let E := fresh "Hid" in destruct (String.eqb id s) eqn:E
  end;
  destruct (String.eqb (options_name i) "TreeItem") eqn:Htree.

(** X11: A click on a menu entry sends at most one message, always with
    [invoke] and the handler that logs a rejection.  The message names
    this item's path, and its command fits the kind of item: a directory
    is never the subject of a file command, nor a file of a directory
    command. *)
Theorem menuClick_messages (i : Instance) (clickedID : string) :
  let out := plain (snd (menuClick i clickedID)) in
  (List.length out <= 1)%nat /\
  forall e, In e out ->
    exists channel command payload,
      e = ipc_invoke channel
            (JObj [("command", JStr command); ("payload", payload)])
            [catch_console_error] /\
      names_path (path (obj (this i))) payload = true /\
      if isDirectory (this i) then
        channel = "application" /\
        In command ["dir-delete"; "root-close"; "dir-project-export"]
      else
        In command ["open-file"; "file-duplicate"; "file-delete"; "root-close"].
Proof.
  cbv zeta. entries i clickedID; unfold invoke_application;
    cbn [snd plain flat_map app List.length];
    (split; [lia|]); intros e He; simpl in He;
    try (now destruct He);
    destruct He as [<-|[]]; do 3 eexists;
    (split; [reflexivity|]);
    (split; [cbn [names_path orb andb String.eqb]; simpl;
             now rewrite String.eqb_refl|]);
    simpl; tauto.
Qed.

(** X12: A click on a menu entry either leaves the instance alone, or starts
    renaming (the rename entry of the item's own menu), or records the
    pending operation of a tree item (new file or new directory, on a
    directory); in the last two cases it has no other effect.  A file
    item emits an event instead of recording the operation. *)
Theorem menuClick_state (i : Instance) (clickedID : string) :
  let i' := fst (menuClick i clickedID) in
  let out := snd (menuClick i clickedID) in
  (i' = i \/
   (out = [] /\
    i' = set_this (set_nameEditing true (this i)) i /\
    clickedID = if isDirectory (this i) then "menu.rename_dir"
                else "menu.rename_file") \/
   (out = [] /\
    isDirectory (this i) = true /\ options_name i = "TreeItem" /\
    ((clickedID = "menu.new_file" /\
      i' = set_operationType (Js.val "createFile") i) \/
     (clickedID = "menu.new_dir" /\
      i' = set_operationType (Js.val "createDir") i)))) /\
  (forall event, In (emit event) out ->
    isDirectory (this i) = true /\ options_name i <> "TreeItem" /\
    ((clickedID = "menu.new_file" /\ event = "create-file") \/
     (clickedID = "menu.new_dir" /\ event = "create-dir"))).
Proof.
  cbv zeta. entries i clickedID; cbn [fst snd]; strings; split;
    try (intros event Hev; simpl in Hev;
         repeat (destruct Hev as [Hev|Hev]; try discriminate);
         try (now destruct Hev);
         injection Hev as <-; repeat split; try assumption; tauto);
    try (now left);
    try (right; left; repeat split; assumption);
    right; right; repeat split; try assumption; tauto.
Qed.

(** X13: The file-properties popover shows the writing target of the item's
    own path: the count and mode of the first target recorded for it,
    and 0 words when there is none.  The word count is passed on for an
    item of type "file" only; for any other it is 0.  The popover hangs
    on the display text of a tree item and on the element of a file
    item, and the instance is left alone. *)
Theorem file_properties_data (i : Instance) :
  isDirectory (this i) = false ->
  exists elem data,
    menuClick i "properties" = (i, [showPopover_FileProps elem data]) /\
    (elem = refs_display_text <-> options_name i = "TreeItem") /\
    FileProps.filepath data = path (obj (this i)) /\
    FileProps.filename data = name (obj (this i)) /\
    (forall before t after,
       writingTargets i = (before ++ t :: after)%list ->
       target_path t = path (obj (this i)) ->
       (forall u, In u before -> target_path u <> path (obj (this i))) ->
       FileProps.targetValue data = count t /\
       FileProps.targetMode data = mode t) /\
    ((forall u, In u (writingTargets i) ->
        target_path u <> path (obj (this i))) ->
     FileProps.targetValue data = 0%Z /\
     FileProps.targetMode data = "words") /\
    FileProps.words data =
      (if String.eqb (type (obj (this i))) "file" then obj_wordCount i
       else VNum 0).
Proof.
  intros Hkind. unfold menuClick, handleContextMenu. rewrite Hkind.
  cbn [snd]. unfold fileMenuClick. cbn [String.eqb Ascii.eqb Bool.eqb].
  do 2 eexists. split; [reflexivity|].
  cbn [FileProps.filepath FileProps.filename FileProps.targetValue
       FileProps.targetMode FileProps.words].
  rewrite getWritingTarget_find.
  set (f := fun t => String.eqb (target_path t) (path (obj (this i)))).
  split; [|split; [reflexivity|split; [reflexivity|split; [|split]]]].
  - destruct (String.eqb (options_name i) "TreeItem") eqn:E; strings;
      split; intros H; try assumption; try reflexivity;
      try discriminate; now destruct E.
  - intros before t after Hl Ht Hb.
    rewrite Hl, (find_skip f before t after); [now split| |].
    + intros u Hu. subst f. cbv beta. apply String.eqb_neq. now apply Hb.
    + subst f. cbv beta. now apply String.eqb_eq.
  - intros Hnone.
    pose proof (find_first f (writingTargets i)) as Hff.
    destruct (find f (writingTargets i)) as [t|]; [|now split].
    destruct Hff as [Ht [before [after [Hl _]]]].
    subst f. cbv beta in Ht. apply String.eqb_eq in Ht.
    destruct (Hnone t); [rewrite Hl; apply in_or_app; right; now left|exact Ht].
  - reflexivity.
Qed.

(** *** Renaming *)

(** X14: Renaming from the context menu and back: the rename entry of the
    item's menu turns [nameEditing] on; finishing with a different name
    sends one rename message whose command fits the kind of item, and
    once its promise has settled, either way, the component is exactly
    as it was before the menu was opened.  Finishing with the unchanged
    name sends nothing and leaves [nameEditing] on. *)
Theorem rename_round_trip (i : Instance) (newName : string) (o : Outcome) :
  nameEditing (this i) = false ->
  newName <> name (obj (this i)) ->
  let entry :=
    if isDirectory (this i) then "menu.rename_dir" else "menu.rename_file" in
  let editing := this (fst (menuClick i entry)) in
  nameEditing editing = true /\
  (exists chain,
     finishNameEditing editing newName =
       (editing,
        [ipc_invoke "application" (JObj [
           ("command", JStr (if isDirectory (this i) then "dir-rename"
                             else "file-rename"));
           ("payload", JObj [
              ("path", JStr (path (obj (this i))));
              ("name", JStr newName)])])
         chain]) /\
     fst (settle o chain editing) = this i) /\
  finishNameEditing editing (name (obj (this i))) = (editing, []).
Proof.
  intros Hoff Hnew. cbv zeta.
  assert (Hediting :
    this (fst (menuClick i (if isDirectory (this i) then "menu.rename_dir"
                            else "menu.rename_file")))
    = set_nameEditing true (this i)).
  { unfold menuClick, handleContextMenu.
    destruct (isDirectory (this i)); reflexivity. }
  rewrite Hediting. split; [reflexivity|split].
  - exists [catch_console_error; finally_nameEditing_false].
    unfold finishNameEditing. cbn [set_nameEditing obj].
    apply String.eqb_neq in Hnew. rewrite Hnew. split.
    + unfold isDirectory. reflexivity.
    + destruct (this i) as [ob w n hk col st]. cbn in Hoff. subst n.
      destruct o; reflexivity.
  - unfold finishNameEditing. cbn [set_nameEditing obj].
    now rewrite String.eqb_refl.
Qed.

(** X15: The reply to a rename writes [nameEditing] and nothing else,
    whatever became of the component while the message was under way; a
    rejection is logged once and does not keep [nameEditing] from being
    turned off. *)
Theorem finishNameEditing_settles (c later : Component) (newName : string) :
  newName <> name (obj c) ->
  exists channel message chain,
    snd (finishNameEditing c newName) = [ipc_invoke channel message chain] /\
    settle fulfilled chain later = (set_nameEditing false later, []) /\
    settle rejected chain later = (set_nameEditing false later, [console_error]).
Proof.
  intros Hnew. apply String.eqb_neq in Hnew.
  unfold finishNameEditing. rewrite Hnew. cbn [snd].
  do 3 eexists. split; [reflexivity|]. split; reflexivity.
Qed.

(** *** The selection in the name input *)

Lemma lastIndexOf_from_absent (s : string) (c : ascii) (i last : Z) :
  occurs c s = false -> lastIndexOf_from s c i last = last.
Proof.
  revert i last. induction s as [|a s IH]; intros i last H; simpl in *.
  - reflexivity.
  - apply orb_false_iff in H as [Ha Hs]. rewrite Ha. now apply IH.
Qed.

Lemma lastIndexOf_from_app (pre s : string) (c : ascii) (i last : Z) :
  lastIndexOf_from (pre ++ s) c i last =
  lastIndexOf_from s c (i + Z.of_nat (String.length pre))
    (lastIndexOf_from pre c i last).
Proof.
  revert i last. induction pre as [|a pre IH]; intros i last.
  - simpl. now rewrite Z.add_0_r.
  - cbn [append lastIndexOf_from String.length]. rewrite IH.
    f_equal. lia.
Qed.

Lemma lastIndexOf_last (base ext : string) (c : ascii) :
  occurs c ext = false ->
  lastIndexOf (base ++ String c ext) c = Z.of_nat (String.length base).
Proof.
  intros Hext. unfold lastIndexOf. rewrite lastIndexOf_from_app.
  cbn [lastIndexOf_from]. rewrite Ascii.eqb_refl.
  now rewrite lastIndexOf_from_absent.
Qed.

Lemma substring_prefix (base rest : string) :
  substring 0 (String.length base) (base ++ rest) = base.
Proof.
  induction base as [|a base IH]; simpl.
  - now destruct rest.
  - now rewrite IH.
Qed.

(** X16: When renaming starts, the input is focused and the selection runs
    from the beginning to the last dot of its text: for a name with an
    extension that is the name without the extension. *)
Theorem watch_nameEditing_selects_base (base ext : string) :
  occurs "." ext = false ->
  let value := base ++ "." ++ ext in
  exists until : nat,
    watch_nameEditing true (Some value) =
      [focus_input; setSelectionRange 0 (Z.of_nat until)] /\
    substring 0 until value = base.
Proof.
  intros Hext. cbv zeta. exists (String.length base). split.
  - unfold watch_nameEditing. cbn [negb]. cbn [append].
    now rewrite lastIndexOf_last.
  - apply substring_prefix.
Qed.

(** Without a dot in the text the selection is asked to end at -1;
    turning [nameEditing] off does nothing; and a missing input is
    logged. *)
Lemma watch_nameEditing_edges (value : string) :
  (occurs "." value = false ->
   watch_nameEditing true (Some value) =
     [focus_input; setSelectionRange 0 (-1)]) /\
  watch_nameEditing false (Some value) = [] /\
  watch_nameEditing true None = [fx console_error].
Proof.
  repeat split. intros H. unfold watch_nameEditing, lastIndexOf. cbn [negb].
  now rewrite lastIndexOf_from_absent.
Qed.

End MenuFacts.

(** ** Closed instances for the rest of the mixin *)

Module MenuInstances.
Import ItemMixin ItemMenu Samples MenuSamples.

Example properties_of_todo :
  snd (menuClick (instance "TreeItem" todo_file) "properties") =
  [showPopover_FileProps refs_display_text {|
     FileProps.filepath := "/home/user/notes/todo.md";
     FileProps.filename := "todo.md";
     FileProps.creationtime := VNum 1700000000000;
     FileProps.modtime := VNum 1700000360000;
     FileProps.tags := VArr [VStr "todo"];
     FileProps.colouredTags := VArr [];
     FileProps.targetValue := 250;
     FileProps.targetMode := "words";
     FileProps.fileSize := VNum 512;
     FileProps.type := "file";
     FileProps.words := VNum 87;
     FileProps.ext := VStr ".md"
   |}].
Proof. reflexivity. Qed.

Example properties_of_script :
  exists data,
    snd (menuClick (instance "FileItem" script_file) "properties") =
      [showPopover_FileProps el data] /\
    FileProps.targetValue data = 0%Z /\
    FileProps.words data = VNum 0.
Proof. eexists. repeat split. Qed.

Example delete_entry_of_the_other_menu :
  menuClick (instance "TreeItem" todo_file) "menu.delete_dir" =
    (instance "TreeItem" todo_file, []) /\
  menuClick (instance "TreeItem" notes_dir) "menu.delete_file" =
    (instance "TreeItem" notes_dir, []).
Proof. split; reflexivity. Qed.

Example drag_inside_and_at_the_edge :
  onDragHandler (component todo_file) window_800_600 {| x := 400; y := 300 |}
    = [] /\
  sent (onDragHandler (component todo_file) window_800_600 {| x := 800; y := 300 |})
    = [("window-controls", JObj [
          ("command", JStr "drag-start");
          ("payload", JObj [("filePath", JStr "/home/user/notes/todo.md")])])] /\
  onDragHandler (component notes_dir) window_800_600 {| x := 0; y := 0 |} = [].
Proof. repeat split. Qed.

Example alt_click_inside_a_directory :
  requestSelection (component sub_dir) alt_click =
  (component sub_dir,
   [ipc_invoke "application" (JObj [
      ("command", JStr "set-open-directory");
      ("payload", JStr "/home/user/notes")]) [catch_console_error]]).
Proof. reflexivity. Qed.

Example alt_click_without_parent_property :
  AnyParent.requestSelection_reading Js.undefined
    (component default_obj) alt_click
    = (AnyParent.throws_TypeError, (component default_obj, [])) /\
  AnyParent.requestSelection_reading Js.undefined
    (component default_obj) left_click
    = (AnyParent.returns, (component default_obj, [])) /\
  AnyParent.requestSelection_reading Js.undefined
    (component todo_file) alt_click
    = (AnyParent.returns, requestSelection (component todo_file) alt_click).
Proof. repeat split. Qed.

Example hidden_file_selection :
  watch_nameEditing true (Some ".gitignore") =
    [focus_input; setSelectionRange 0 0] /\
  watch_nameEditing true (Some "archive.tar.gz") =
    [focus_input; setSelectionRange 0 11] /\
  watch_nameEditing true (Some "Makefile") =
    [focus_input; setSelectionRange 0 (-1)].
Proof. repeat split. Qed.

Lemma requestSelection_opens_file_witness :
  exists newTab : bool,
    fst (requestSelection (component script_file) alt_click)
      = component script_file /\
    sent (snd (requestSelection (component script_file) alt_click)) =
      [("documents-provider", JObj [
          ("command", JStr "open-file");
          ("payload", JObj [
             ("path", JStr "/home/user/notes/plot.py");
             ("windowId", JStr "main");
             ("leafId", JStr "leaf-1");
             ("newTab", JBool newTab)])])] /\
    (newTab = true <->
     (event_type alt_click = "auxclick" /\ button alt_click = Js.val 1%Z) \/
     (altKey alt_click = true /\ type (obj (component script_file)) = "file")).
Proof.
  apply (SelectionFacts.requestSelection_opens_file
           (component script_file) alt_click).
  - discriminate.
  - discriminate.
  - right. reflexivity.
Defined.

Lemma requestSelection_twice_restores_witness :
  collapsed (fst (requestSelection (component notes_dir) left_click))
    = Js.val false /\
  fst (requestSelection
         (fst (requestSelection (component notes_dir) left_click)) alt_click)
    = component notes_dir.
Proof.
  apply (SelectionFacts.requestSelection_twice_restores
           (component notes_dir) left_click alt_click true).
  - reflexivity.
  - discriminate.
  - reflexivity.
  - reflexivity.
  - split; [discriminate|left; reflexivity].
  - split; [discriminate|right; reflexivity].
Defined.

Lemma file_properties_data_witness :
  exists elem data,
    menuClick (instance "FileItem" todo_file) "properties"
      = (instance "FileItem" todo_file, [showPopover_FileProps elem data]) /\
    FileProps.targetValue data = 250%Z /\
    FileProps.targetMode data = "words".
Proof.
  destruct (MenuFacts.file_properties_data (instance "FileItem" todo_file))
    as [elem [data [Hclick [_ [_ [_ [Hfirst _]]]]]]].
  - reflexivity.
  - exists elem, data. split; [exact Hclick|].
    apply (Hfirst
      [{| target_path := "/home/user/notes/draft.md"; mode := "chars";
          count := 4000 |}]
      {| target_path := "/home/user/notes/todo.md"; mode := "words";
         count := 250 |}
      [{| target_path := "/home/user/notes/todo.md"; mode := "chars";
          count := 9 |}]).
    + reflexivity.
    + reflexivity.
    + intros u [<-|[]]. discriminate.
Defined.

Lemma rename_round_trip_witness :
  let editing := this (fst (menuClick (instance "FileItem" todo_file)
                              "menu.rename_file")) in
  nameEditing editing = true /\
  (exists chain,
     finishNameEditing editing "done.md" =
       (editing,
        [ipc_invoke "application" (JObj [
           ("command", JStr "file-rename");
           ("payload", JObj [
              ("path", JStr "/home/user/notes/todo.md");
              ("name", JStr "done.md")])])
         chain]) /\
     fst (settle rejected chain editing) = this (instance "FileItem" todo_file)) /\
  finishNameEditing editing "todo.md" = (editing, []).
Proof.
  apply (MenuFacts.rename_round_trip (instance "FileItem" todo_file)
           "done.md" rejected).
  - reflexivity.
  - discriminate.
Defined.

Lemma watch_nameEditing_selects_base_witness :
  exists until : nat,
    watch_nameEditing true (Some "todo.md") =
      [focus_input; setSelectionRange 0 (Z.of_nat until)] /\
    substring 0 until "todo.md" = "todo".
Proof.
  apply (MenuFacts.watch_nameEditing_selects_base "todo" "md").
  reflexivity.
Defined.

Lemma requestSelection_alt_selects_parent_witness :
  fst (requestSelection (component sub_dir) alt_click) = component sub_dir /\
  sent (snd (requestSelection (component sub_dir) alt_click)) =
    [("application", JObj [
        ("command", JStr "set-open-directory");
        ("payload", JStr "/home/user/notes")])] /\
  ~ In toggleFileList (snd (requestSelection (component sub_dir) alt_click)).
Proof.
  apply (SelectionFacts.requestSelection_alt_selects_parent
           (component sub_dir) alt_click
           {| parent_path := "/home/user/notes" |}).
  - discriminate.
  - discriminate.
  - discriminate.
  - discriminate.
  - reflexivity.
  - reflexivity.
Defined.

Lemma finishNameEditing_settles_witness :
  exists channel message chain,
    snd (finishNameEditing (component todo_file) "done.md")
      = [ipc_invoke channel message chain] /\
    settle fulfilled chain (component notes_dir)
      = (set_nameEditing false (component notes_dir), []) /\
    settle rejected chain (component notes_dir)
      = (set_nameEditing false (component notes_dir), [console_error]).
Proof.
  apply (MenuFacts.finishNameEditing_settles
           (component todo_file) (component notes_dir) "done.md").
  discriminate.
Defined.

End MenuInstances.
